(** * The four-module [Agent] of [src/agent/__init__.py]

    A shallow embedding of [Agent.__init__] and [Agent.step] (four-module
    branch) together with the Python values, dictionaries, strings and the
    bounded [deque] they manipulate, followed by the properties of the
    per-tick pipeline. *)

From Stdlib Require Import String Ascii.
From Stdlib Require Import List ZArith NArith Bool Lia.
From ExtLib Require Import Structures.Monad Structures.MonadExc.
Import ListNotations.
Import MonadNotation.
Local Open Scope monad_scope.

Set Implicit Arguments.

(** ** Python [str]

    A Python [str] is a sequence of Unicode code points; [lit] embeds an
    ASCII literal of the source. *)

Definition pystr := list N.

Definition lit (s : string) : pystr :=
  map N_of_ascii (list_ascii_of_string s).

Definition pystr_eqb (a b : pystr) : bool :=
  if list_eq_dec N.eq_dec a b then true else false.

(** The code points for which [str.isspace] holds; [str.strip()] without
    argument removes exactly these. *)
Definition is_space (c : N) : bool :=
  ((9 <=? c) && (c <=? 13) || (28 <=? c) && (c <=? 32)
   || (c =? 133) || (c =? 160) || (c =? 5760)
   || (8192 <=? c) && (c <=? 8202)
   || (c =? 8232) || (c =? 8233) || (c =? 8239) || (c =? 8287)
   || (c =? 12288))%N.

Definition comma : N := 44.

Fixpoint drop_space (s : pystr) : pystr :=
  match s with
  | [] => []
  | c :: s' => if is_space c then drop_space s' else s
  end.

Definition lstrip (s : pystr) : pystr := drop_space s.
Definition rstrip (s : pystr) : pystr := rev (drop_space (rev s)).

(** [s.strip()] *)
Definition strip (s : pystr) : pystr := rstrip (lstrip s).

(** [s.split(sep)] for a one-character separator: every occurrence of [sep]
    ends a piece, so a string with [k] separators yields [k + 1] pieces
    (and [''.split(',') == ['']]). *)
Fixpoint split (sep : N) (s : pystr) : list pystr :=
  match s with
  | [] => [[]]
  | c :: s' =>
      if (c =? sep)%N then [] :: split sep s'
      else match split sep s' with
           | [] => [[c]]
           | p :: ps => (c :: p) :: ps
           end
  end.

(** [sep.join(pieces)] *)
Fixpoint join (sep : N) (pieces : list pystr) : pystr :=
  match pieces with
  | [] => []
  | [p] => p
  | p :: ps => p ++ sep :: join sep ps
  end.

(** The words of the normalisation policy, as a relation: [t] is [p]
    with the whitespace around it removed. *)
Definition clean_ends (t : pystr) : Prop :=
  match t with
  | [] => True
  | a :: _ => is_space a = false /\ is_space (last t a) = false
  end.

Definition trims (p t : pystr) : Prop :=
  exists l r,
    p = l ++ t ++ r /\ forallb is_space l = true /\
    forallb is_space r = true /\ clean_ends t.

(** [toks] are the tokens of [s]: [s] is cut at its commas, each piece is
    trimmed, the empty ones are dropped and the order is kept. *)
Definition tokens_of (s : pystr) (toks : list pystr) : Prop :=
  exists pieces trimmed,
    pieces <> [] /\ join comma pieces = s /\
    Forall (fun p => ~ In comma p) pieces /\
    Forall2 trims pieces trimmed /\
    toks = filter (fun t => negb (pystr_eqb t [])) trimmed.

(** ** Python values *)

#[warnings="-register-all"]
Inductive value : Type :=
| VNone
| VBool (b : bool)
| VInt (z : Z)
| VStr (s : pystr)
| VList (l : list value)
| VTuple (l : list value)
| VDict (d : list (pystr * value))
| VObj (id : N).
(** [VObj] is an opaque object without container protocol or [get]
    attribute, such as a PIL image; a [dict] keeps its insertion order and
    has [str] keys.  Floats, bytes and sets do not occur in [Agent]. *)

Definition dict := list (pystr * value).

(** Exceptions derived from [Exception], the class the handler of [step]
    catches; [signal] below adds what the handler lets through. *)
Inductive exn : Type :=
| AttributeError
| TypeError
| ValueError
| OtherError (msg : pystr).

Inductive result (A : Type) : Type :=
| Ok (a : A)
| Raise (e : exn).
Arguments Ok {A} a.
Arguments Raise {A} e.

(** [bool(v)] *)
Definition truthy (v : value) : bool :=
  match v with
  | VNone => false
  | VBool b => b
  | VInt z => negb (z =? 0)%Z
  | VStr s => negb (pystr_eqb s [])
  | VList l | VTuple l => match l with [] => false | _ => true end
  | VDict d => match d with [] => false | _ => true end
  | VObj _ => true
  end.

Fixpoint dict_lookup (d : dict) (k : pystr) : option value :=
  match d with
  | [] => None
  | (k', v) :: d' => if pystr_eqb k' k then Some v else dict_lookup d' k
  end.

(** [d.get(k, default)] on a [dict] *)
Definition dict_get (d : dict) (k : pystr) (default : value) : value :=
  match dict_lookup d k with
  | Some v => v
  | None => default
  end.

(** [o.get(k, default)]: only a [dict] has the attribute. *)
Definition py_get (o : value) (k : pystr) (default : value) : result value :=
  match o with
  | VDict d => Ok (dict_get d k default)
  | _ => Raise AttributeError
  end.

(** [o.items()] *)
Definition py_items (o : value) : result dict :=
  match o with
  | VDict d => Ok d
  | _ => Raise AttributeError
  end.

(** [list(o)]: the elements an iteration over [o] yields. *)
Definition py_list (o : value) : result (list value) :=
  match o with
  | VList l | VTuple l => Ok l
  | VStr s => Ok (map (fun c => VStr [c]) s)
  | VDict d => Ok (map (fun kv => VStr (fst kv)) d)
  | VNone | VBool _ | VInt _ | VObj _ => Raise TypeError
  end.

(** [a, b = o] *)
Definition unpack2 (o : value) : result (value * value) :=
  match py_list o with
  | Ok [a; b] => Ok (a, b)
  | Ok _ => Raise ValueError
  | Raise e => Raise e
  end.

(** ** [collections.deque] with [maxlen] *)

Record deque : Type := Deque {
  maxlen : option nat;
  items : list value
}.

Definition deque_new (maxlen : option nat) : deque := Deque maxlen [].

(** [d.append(x)]: the item is added on the right and, when the length
    then exceeds [maxlen], one item is removed on the left. *)
Definition deque_append (d : deque) (x : value) : deque :=
  let l := items d ++ [x] in
  match maxlen d with
  | Some n => Deque (maxlen d) (if n <? length l then tl l else l)
  | None => Deque (maxlen d) l
  end.

(** The last [n] elements of [l]. *)
Definition lastn (A : Type) (n : nat) (l : list A) : list A :=
  skipn (length l - n) l.

(** ** Belief state, collaborators and effects *)

(** [self.context]: the five keys are created by [__init__] and never
    deleted, so the dictionary is a record of its five slots. *)
Record Context : Type := {
  memory_context : value;
  current_plan : value;
  recent_actions : deque;
  last_observation : value;
  step_counter : Z
}.

(** The four stage functions imported by the module.  Their bodies are
    model calls; each either returns a value or raises.  The constant
    [self.vlm] argument is part of the closure, and a stage does not
    mutate the arguments it is given. *)
Record stages : Type := {
  perception_step : value -> dict -> result value;
  memory_step : value -> value -> list value -> list value -> result value;
  planning_step : value -> value -> value -> dict -> result value;
  action_step :
    value -> value -> value -> value -> dict -> list value -> result value
}.

(** What a tick does to the outside: the stage calls with their arguments
    and outcome, and the line printed by the handler. *)
Inductive event : Type :=
| EvPerception (frame : value) (state_data : dict) (r : result value)
| EvMemory (mc plan : value) (recent entries : list value) (r : result value)
| EvPlanning (mc plan slow : value) (state_data : dict) (r : result value)
| EvAction (mc plan text frame : value) (state_data : dict)
    (recent : list value) (r : result value)
| EvPrint (e : exn).

(** A computation reads and writes the belief state, emits events and
    returns or raises.  A raise keeps the writes made so far, as an
    exception in Python does. *)
Definition M (A : Type) : Type := Context -> result A * Context * list event.

#[global] Instance Monad_result : Monad result := {|
  ret := fun _ a => Ok a;
  bind := fun _ _ r f => match r with Ok a => f a | Raise e => Raise e end
|}.

#[global] Instance Monad_M : Monad M := {|
  ret := fun _ a c => (Ok a, c, []);
  bind := fun _ _ m f c =>
    match m c with
    | (Ok a, c', t) => let '(r, c'', t') := f a c' in (r, c'', t ++ t')
    | (Raise e, c', t) => (Raise e, c', t)
    end
|}.

#[global] Instance Exc_M : MonadExc exn M := {|
  raise := fun _ e c => (Raise e, c, []);
  catch := fun _ m h c =>
    match m c with
    | (Ok a, c', t) => (Ok a, c', t)
    | (Raise e, c', t) => let '(r, c'', t') := h e c' in (r, c'', t ++ t')
    end
|}.

Definition lift (A : Type) (r : result A) : M A := fun c => (r, c, []).
Definition gets (A : Type) (f : Context -> A) : M A := fun c => (Ok (f c), c, []).
Definition modify (f : Context -> Context) : M unit := fun c => (Ok tt, f c, []).
Definition emit (ev : event) : M unit := fun c => (Ok tt, c, [ev]).

(** A call of a collaborator: the outcome is recorded, then returned or
    raised. *)
Definition call (ev : result value -> event) (r : result value) : M value :=
  fun c => (r, c, [ev r]).

Fixpoint for_each (A : Type) (l : list A) (body : A -> M unit) : M unit :=
  match l with
  | [] => ret tt
  | a :: l' => body a ;; for_each l' body
  end.

(** [self.context[k] = v] for each slot. *)
Definition set_memory_context (v : value) (c : Context) : Context :=
  {| memory_context := v; current_plan := current_plan c;
     recent_actions := recent_actions c;
     last_observation := last_observation c;
     step_counter := step_counter c |}.

Definition set_current_plan (v : value) (c : Context) : Context :=
  {| memory_context := memory_context c; current_plan := v;
     recent_actions := recent_actions c;
     last_observation := last_observation c;
     step_counter := step_counter c |}.

Definition set_recent_actions (d : deque) (c : Context) : Context :=
  {| memory_context := memory_context c; current_plan := current_plan c;
     recent_actions := d;
     last_observation := last_observation c;
     step_counter := step_counter c |}.

Definition set_last_observation (v : value) (c : Context) : Context :=
  {| memory_context := memory_context c; current_plan := current_plan c;
     recent_actions := recent_actions c;
     last_observation := v;
     step_counter := step_counter c |}.

Definition set_step_counter (z : Z) (c : Context) : Context :=
  {| memory_context := memory_context c; current_plan := current_plan c;
     recent_actions := recent_actions c;
     last_observation := last_observation c;
     step_counter := z |}.

(** ** [Agent] *)

(** [Agent.__init__] with [simple_mode] false: the shared context of the
    four-module pipeline. *)
Definition Agent_init : Context :=
  {| memory_context := VStr (lit "Initialized memory context");
     current_plan := VNone;
     recent_actions := deque_new (Some 25);
     last_observation := VNone;
     step_counter := 0 |}.

(** [game_state.get("frame") or game_state.get("visual", {}).get("screenshot")] *)
Definition resolve_frame (game_state : value) : result value :=
  f <- py_get game_state (lit "frame") VNone ;;
  if truthy f then ret f
  else
    visual <- py_get game_state (lit "visual") (VDict []) ;;
    py_get visual (lit "screenshot") VNone.

(** [{k: v for k, v in game_state.items() if k != "frame"}] *)
Definition residual_state (game_state : value) : result dict :=
  kvs <- py_items game_state ;;
  ret (filter (fun kv => negb (pystr_eqb (fst kv) (lit "frame"))) kvs).

(** The normalisation of the action stage's result:
    [None] gives [[]], a [str] gives
    [[btn.strip() for btn in actions.split(",") if btn.strip()]],
    anything else [list(actions)]. *)
Definition normalize (actions : value) : result (list value) :=
  match actions with
  | VNone => Ok []
  | VStr s =>
      Ok (flat_map
            (fun btn => if truthy (VStr (strip btn)) then [VStr (strip btn)] else [])
            (split comma s))
  | _ => py_list actions
  end.

Definition observation_entry (frame_id observation_text : value)
    (state_data : dict) : value :=
  VDict [ (lit "frame_id", frame_id);
          (lit "observation", observation_text);
          (lit "state", VDict state_data) ].

Definition decision (actions : list value) (observation_dict current_plan
    memory_context : value) : value :=
  VDict [ (lit "action", VList actions);
          (lit "observation", observation_dict);
          (lit "plan", current_plan);
          (lit "memory_context", memory_context) ].

Section Step.

(** The builtin [str] applied to the observation; it is total. *)
Variable py_str : value -> pystr.

Variable st : stages.

(** The body of the [try] block of [Agent.step]. *)
Definition step_try (game_state : value) : M value :=
  frame <- lift (resolve_frame game_state) ;;
  state_data <- lift (residual_state game_state) ;;
  (* 1. Perception *)
  r <- call (EvPerception frame state_data)
         (perception_step st frame state_data) ;;
  '(observation_dict, slow_thinking_needed) <- lift (unpack2 r) ;;
  observation_text <-
    lift (py_get observation_dict (lit "description")
            (VStr (py_str observation_dict))) ;;
  modify (set_last_observation observation_dict) ;;
  (* 2. Memory *)
  counter <- gets step_counter ;;
  let entry :=
    observation_entry
      (dict_get state_data (lit "step_number") (VInt counter))
      observation_text state_data in
  old_memory <- gets memory_context ;;
  old_plan <- gets current_plan ;;
  recent <- gets (fun c => items (recent_actions c)) ;;
  memory_context <-
    call (EvMemory old_memory old_plan recent [entry])
      (memory_step st old_memory old_plan recent [entry]) ;;
  modify (set_memory_context memory_context) ;;
  (* 3. Planning *)
  old_plan <- gets current_plan ;;
  current_plan <-
    call (EvPlanning memory_context old_plan slow_thinking_needed state_data)
      (planning_step st memory_context old_plan slow_thinking_needed
         state_data) ;;
  modify (set_current_plan current_plan) ;;
  (* 4. Action *)
  recent_actions' <- gets (fun c => items (recent_actions c)) ;;
  raw <-
    call (EvAction memory_context current_plan observation_text frame
            state_data recent_actions')
      (action_step st memory_context current_plan observation_text frame
         state_data recent_actions') ;;
  actions <- lift (normalize raw) ;;
  for_each actions
    (fun action =>
       modify (fun c =>
         set_recent_actions (deque_append (recent_actions c) action) c)) ;;
  modify (fun c => set_step_counter (step_counter c + 1) c) ;;
  ret (decision actions observation_dict current_plan memory_context).

(** [Agent.step] in four-module mode ([self.simple_mode] false; the other
    branch hands the call to [SimpleAgent.step]): the [try] block and its
    [except Exception] handler, which prints the error, taken to succeed,
    and returns [None].  [step_io] below is the same with a [print] that
    can raise and with signals outside [Exception]. *)
Definition step_m (game_state : value) : M value :=
  catch (step_try game_state) (fun e => emit (EvPrint e) ;; ret VNone).

Definition step (game_state : value) (c : Context)
  : result value * Context * list event :=
  step_m game_state c.

(** The slots a tick has written when it reaches a given stage. *)
Definition after_perception (obs : value) (c : Context) : Context :=
  set_last_observation obs c.
Definition after_memory (obs mc : value) (c : Context) : Context :=
  set_memory_context mc (after_perception obs c).
Definition after_planning (obs mc plan : value) (c : Context) : Context :=
  set_current_plan plan (after_memory obs mc c).
Definition after_action (obs mc plan : value) (acts : list value)
    (c : Context) : Context :=
  let c3 := after_planning obs mc plan c in
  let c4 :=
    set_recent_actions (fold_left deque_append acts (recent_actions c3)) c3 in
  set_step_counter (step_counter c4 + 1) c4.

(** The entry handed to the memory stage. *)
Definition entry_of (state_data : dict) (text : value) (c : Context) : value :=
  observation_entry
    (dict_get state_data (lit "step_number") (VInt (step_counter c)))
    text state_data.

(** The paths through one tick: where it stops, what it returns, the
    belief state it leaves and the events it emits. *)
Inductive tick (game_state : value) (c : Context)
  : result value -> Context -> list event -> Prop :=
| tick_snapshot_error e :
    resolve_frame game_state = Raise e ->
    tick game_state c (Ok VNone) c [EvPrint e]
| tick_items_error frame e :
    resolve_frame game_state = Ok frame ->
    residual_state game_state = Raise e ->
    tick game_state c (Ok VNone) c [EvPrint e]
| tick_perception_raises frame sd e :
    resolve_frame game_state = Ok frame ->
    residual_state game_state = Ok sd ->
    perception_step st frame sd = Raise e ->
    tick game_state c (Ok VNone) c
      [EvPerception frame sd (Raise e); EvPrint e]
| tick_unpack_error frame sd r e :
    resolve_frame game_state = Ok frame ->
    residual_state game_state = Ok sd ->
    perception_step st frame sd = Ok r ->
    unpack2 r = Raise e ->
    tick game_state c (Ok VNone) c
      [EvPerception frame sd (Ok r); EvPrint e]
| tick_description_error frame sd r obs slow e :
    resolve_frame game_state = Ok frame ->
    residual_state game_state = Ok sd ->
    perception_step st frame sd = Ok r ->
    unpack2 r = Ok (obs, slow) ->
    py_get obs (lit "description") (VStr (py_str obs)) = Raise e ->
    tick game_state c (Ok VNone) c
      [EvPerception frame sd (Ok r); EvPrint e]
| tick_memory_raises frame sd r obs slow text e :
    resolve_frame game_state = Ok frame ->
    residual_state game_state = Ok sd ->
    perception_step st frame sd = Ok r ->
    unpack2 r = Ok (obs, slow) ->
    py_get obs (lit "description") (VStr (py_str obs)) = Ok text ->
    memory_step st (memory_context c) (current_plan c)
      (items (recent_actions c)) [entry_of sd text c] = Raise e ->
    tick game_state c (Ok VNone) (after_perception obs c)
      [EvPerception frame sd (Ok r);
       EvMemory (memory_context c) (current_plan c)
         (items (recent_actions c)) [entry_of sd text c] (Raise e);
       EvPrint e]
| tick_planning_raises frame sd r obs slow text mc e :
    resolve_frame game_state = Ok frame ->
    residual_state game_state = Ok sd ->
    perception_step st frame sd = Ok r ->
    unpack2 r = Ok (obs, slow) ->
    py_get obs (lit "description") (VStr (py_str obs)) = Ok text ->
    memory_step st (memory_context c) (current_plan c)
      (items (recent_actions c)) [entry_of sd text c] = Ok mc ->
    planning_step st mc (current_plan c) slow sd = Raise e ->
    tick game_state c (Ok VNone) (after_memory obs mc c)
      [EvPerception frame sd (Ok r);
       EvMemory (memory_context c) (current_plan c)
         (items (recent_actions c)) [entry_of sd text c] (Ok mc);
       EvPlanning mc (current_plan c) slow sd (Raise e);
       EvPrint e]
| tick_action_raises frame sd r obs slow text mc plan e :
    resolve_frame game_state = Ok frame ->
    residual_state game_state = Ok sd ->
    perception_step st frame sd = Ok r ->
    unpack2 r = Ok (obs, slow) ->
    py_get obs (lit "description") (VStr (py_str obs)) = Ok text ->
    memory_step st (memory_context c) (current_plan c)
      (items (recent_actions c)) [entry_of sd text c] = Ok mc ->
    planning_step st mc (current_plan c) slow sd = Ok plan ->
    action_step st mc plan text frame sd (items (recent_actions c))
      = Raise e ->
    tick game_state c (Ok VNone) (after_planning obs mc plan c)
      [EvPerception frame sd (Ok r);
       EvMemory (memory_context c) (current_plan c)
         (items (recent_actions c)) [entry_of sd text c] (Ok mc);
       EvPlanning mc (current_plan c) slow sd (Ok plan);
       EvAction mc plan text frame sd (items (recent_actions c)) (Raise e);
       EvPrint e]
| tick_normalize_error frame sd r obs slow text mc plan raw e :
    resolve_frame game_state = Ok frame ->
    residual_state game_state = Ok sd ->
    perception_step st frame sd = Ok r ->
    unpack2 r = Ok (obs, slow) ->
    py_get obs (lit "description") (VStr (py_str obs)) = Ok text ->
    memory_step st (memory_context c) (current_plan c)
      (items (recent_actions c)) [entry_of sd text c] = Ok mc ->
    planning_step st mc (current_plan c) slow sd = Ok plan ->
    action_step st mc plan text frame sd (items (recent_actions c))
      = Ok raw ->
    normalize raw = Raise e ->
    tick game_state c (Ok VNone) (after_planning obs mc plan c)
      [EvPerception frame sd (Ok r);
       EvMemory (memory_context c) (current_plan c)
         (items (recent_actions c)) [entry_of sd text c] (Ok mc);
       EvPlanning mc (current_plan c) slow sd (Ok plan);
       EvAction mc plan text frame sd (items (recent_actions c)) (Ok raw);
       EvPrint e]
| tick_done frame sd r obs slow text mc plan raw acts :
    resolve_frame game_state = Ok frame ->
    residual_state game_state = Ok sd ->
    perception_step st frame sd = Ok r ->
    unpack2 r = Ok (obs, slow) ->
    py_get obs (lit "description") (VStr (py_str obs)) = Ok text ->
    memory_step st (memory_context c) (current_plan c)
      (items (recent_actions c)) [entry_of sd text c] = Ok mc ->
    planning_step st mc (current_plan c) slow sd = Ok plan ->
    action_step st mc plan text frame sd (items (recent_actions c))
      = Ok raw ->
    normalize raw = Ok acts ->
    tick game_state c (Ok (decision acts obs plan mc))
      (after_action obs mc plan acts c)
      [EvPerception frame sd (Ok r);
       EvMemory (memory_context c) (current_plan c)
         (items (recent_actions c)) [entry_of sd text c] (Ok mc);
       EvPlanning mc (current_plan c) slow sd (Ok plan);
       EvAction mc plan text frame sd (items (recent_actions c)) (Ok raw)].

End Step.

(** The result, belief state and events of a tick. *)
Definition step_result (py_str : value -> pystr) (st : stages)
    (game_state : value) (c : Context) : result value :=
  fst (fst (step py_str st game_state c)).

Definition step_context (py_str : value -> pystr) (st : stages)
    (game_state : value) (c : Context) : Context :=
  snd (fst (step py_str st game_state c)).

Definition step_events (py_str : value -> pystr) (st : stages)
    (game_state : value) (c : Context) : list event :=
  snd (step py_str st game_state c).

(** A caller driving the agent: each tick comes with the behaviour the
    stages show during it and the snapshot passed to [step]. *)
Fixpoint run (py_str : value -> pystr) (ticks : list (stages * value))
    (c : Context) : Context :=
  match ticks with
  | [] => c
  | (st, game_state) :: ticks' =>
      run py_str ticks' (step_context py_str st game_state c)
  end.

(** The action list of the decision a tick returns, empty when it
    returns [None]. *)
Definition tick_actions (py_str : value -> pystr) (st : stages)
    (game_state : value) (c : Context) : list value :=
  match step_result py_str st game_state c with
  | Ok (VDict ((_, VList acts) :: _)) => acts
  | _ => []
  end.

(** The action tokens a run returns to its caller, in order. *)
Fixpoint run_actions (py_str : value -> pystr) (ticks : list (stages * value))
    (c : Context) : list value :=
  match ticks with
  | [] => []
  | (st, game_state) :: ticks' =>
      tick_actions py_str st game_state c
      ++ run_actions py_str ticks' (step_context py_str st game_state c)
  end.

(** The stage whose call an event records as raising. *)
Inductive stage_name : Type := Perception | Memory | Planning | Action.

Definition raised_in (ev : event) : option stage_name :=
  match ev with
  | EvPerception _ _ (Raise _) => Some Perception
  | EvMemory _ _ _ _ (Raise _) => Some Memory
  | EvPlanning _ _ _ _ (Raise _) => Some Planning
  | EvAction _ _ _ _ _ _ (Raise _) => Some Action
  | _ => None
  end.

Definition stage_raised (t : list event) : bool :=
  existsb (fun ev => match raised_in ev with Some _ => true | None => false end) t.

(** What the stages returned during a tick, read off its events. *)
Definition observed (t : list event) (obs : value) : Prop :=
  exists frame sd r slow,
    In (EvPerception frame sd (Ok r)) t /\ unpack2 r = Ok (obs, slow).

Definition remembered (t : list event) (mc : value) : Prop :=
  exists old plan recent entries,
    In (EvMemory old plan recent entries (Ok mc)) t.

Definition planned (t : list event) (plan : value) : Prop :=
  exists mc old slow sd, In (EvPlanning mc old slow sd (Ok plan)) t.

Definition acted (t : list event) (raw : value) : Prop :=
  exists mc plan text frame sd recent,
    In (EvAction mc plan text frame sd recent (Ok raw)) t.

(** The keys a snapshot may or may not carry. *)
Definition optional_keys : list pystr :=
  [lit "frame"; lit "visual"; lit "game_state"; lit "audio"; lit "progress";
   lit "step_number"].

(** The mapping [d] with the keys [ks] absent. *)
Definition dict_without (ks : list pystr) (d : dict) : dict :=
  filter (fun kv => negb (existsb (pystr_eqb (fst kv)) ks)) d.



(** The contract of the memory stage: what it returns is not [None]. *)
Definition memory_contract (st : stages) : Prop :=
  forall old plan recent entries mc,
    memory_step st old plan recent entries = Ok mc -> mc <> VNone.

(** ** A concrete scenario *)

Module Scenario.

(** A stand-in for the builtin [str]. *)
Definition py_str (v : value) : pystr := lit "<observation>".

Definition observation : value :=
  VDict [(lit "description", VStr (lit "Littleroot Town"))].

(** Stages that all return; the planner keeps the plan it is given and
    the action stage answers [raw]. *)
Definition returning (raw : value) : stages :=
  {| perception_step := fun _ _ => Ok (VTuple [observation; VBool false]);
     memory_step := fun _ _ _ _ => Ok (VStr (lit "met the professor"));
     planning_step := fun _ plan _ _ => Ok plan;
     action_step := fun _ _ _ _ _ _ => Ok raw |}.

Definition backend_error : exn := OtherError (lit "backend error").

Definition perception_fails : stages :=
  {| perception_step := fun _ _ => Raise backend_error;
     memory_step := memory_step (returning VNone);
     planning_step := planning_step (returning VNone);
     action_step := action_step (returning VNone) |}.

Definition memory_fails : stages :=
  {| perception_step := perception_step (returning VNone);
     memory_step := fun _ _ _ _ => Raise backend_error;
     planning_step := planning_step (returning VNone);
     action_step := action_step (returning VNone) |}.

Definition image : value := VObj 1.

Definition fields : dict :=
  [(lit "frame", image); (lit "game_state", VDict []);
   (lit "step_number", VInt 7)].

Definition snapshot : value := VDict fields.

(** What is left of [snapshot] without its frame, and the entry the
    memory stage gets for it. *)
Definition residual : dict :=
  [(lit "game_state", VDict []); (lit "step_number", VInt 7)].

Definition entry : value :=
  observation_entry (VInt 7) (VStr (lit "Littleroot Town")) residual.

(** A snapshot whose frame is only under [visual]. *)
Definition visual_fields : dict :=
  [(lit "visual", VDict [(lit "screenshot", image)]);
   (lit "audio", VDict []); (lit "step_number", VInt 7)].

Definition button (name : string) : value := VStr (lit name).

(** One tick that returns twenty-five presses of [A]. *)
Definition full_history : list (stages * value) :=
  [(returning (VList (repeat (button "A") 25)), snapshot)].

(** A tick that succeeds followed by one whose memory stage raises. *)
Definition two_ticks : list (stages * value) :=
  [(returning (button "LEFT"), snapshot); (memory_fails, snapshot)].

End Scenario.

(** ** Reading a tick's events *)




(** The [state_data] argument of a stage call that takes one. *)
Definition state_data_of (ev : event) : option dict :=
  match ev with
  | EvPerception _ sd _ => Some sd
  | EvPlanning _ _ _ sd _ => Some sd
  | EvAction _ _ _ _ sd _ _ => Some sd
  | EvMemory _ _ _ _ _ | EvPrint _ => None
  end.


(** A token as [normalize] leaves it: not empty, free of commas, without
    whitespace at either end. *)
Definition clean_token (t : pystr) : Prop :=
  t <> [] /\ ~ In comma t /\ clean_ends t.

(** The number of ticks of a run that return a decision. *)
Fixpoint run_decisions (py_str : value -> pystr)
    (ticks : list (stages * value)) (c : Context) : nat :=
  match ticks with
  | [] => 0
  | (st, game_state) :: ticks' =>
      match step_result py_str st game_state c with
      | Ok (VDict _) => 1
      | _ => 0
      end
      + run_decisions py_str ticks' (step_context py_str st game_state c)
  end.

(** ** Exceptions outside [Exception], and a handler that can fail

    [exn] and [step] above are the tick as long as what is raised derives
    from [Exception] and the handler's [print] completes.  Python has
    more: a call may raise an instance of [BaseException] that does not
    derive from [Exception], which [except Exception] lets through, and
    the [print] of the handler may itself raise.  [step_io] is the same
    [try] block and handler with both. *)

Inductive base_exn : Type :=
| KeyboardInterrupt
| SystemExit
| GeneratorExit.

(** What a call raises: an instance of a class derived from [Exception],
    or of one that is not. *)
Inductive signal : Type :=
| Exc (e : exn)
| BaseOnly (b : base_exn).

Inductive outcome (A : Type) : Type :=
| Returns (a : A)
| Raises (s : signal).
Arguments Returns {A} a.
Arguments Raises {A} s.

(** The four stages, and the handler's
    [print(f"... Agent error: {e}")] with the formatting of [e] in it. *)
Record environment : Type := {
  env_perception_step : value -> dict -> outcome value;
  env_memory_step :
    value -> value -> list value -> list value -> outcome value;
  env_planning_step : value -> value -> value -> dict -> outcome value;
  env_action_step :
    value -> value -> value -> value -> dict -> list value -> outcome value;
  env_print_error : exn -> outcome unit
}.

Inductive io_event : Type :=
| IoPerception (frame : value) (state_data : dict) (r : outcome value)
| IoMemory (mc plan : value) (recent entries : list value) (r : outcome value)
| IoPlanning (mc plan slow : value) (state_data : dict) (r : outcome value)
| IoAction (mc plan text frame : value) (state_data : dict)
    (recent : list value) (r : outcome value)
| IoPrint (e : exn) (r : outcome unit).

Definition IO (A : Type) : Type :=
  Context -> outcome A * Context * list io_event.

#[global] Instance Monad_IO : Monad IO := {|
  ret := fun _ a c => (Returns a, c, []);
  bind := fun _ _ m f c =>
    match m c with
    | (Returns a, c', t) => let '(r, c'', t') := f a c' in (r, c'', t ++ t')
    | (Raises s, c', t) => (Raises s, c', t)
    end
|}.

(** [try: body except Exception as e: handler(e)]: an exception raised
    by the handler, and a signal outside [Exception], leave the
    statement. *)
Definition try_except_Exception (A : Type) (body : IO A)
    (handler : exn -> IO A) : IO A :=
  fun c =>
    match body c with
    | (Returns a, c', t) => (Returns a, c', t)
    | (Raises (Exc e), c', t) =>
        let '(r, c'', t') := handler e c' in (r, c'', t ++ t')
    | (Raises (BaseOnly b), c', t) => (Raises (BaseOnly b), c', t)
    end.

(** An error of the orchestrating code itself derives from
    [Exception]. *)
Definition io_lift (A : Type) (r : result A) : IO A :=
  fun c =>
    (match r with Ok a => Returns a | Raise e => Raises (Exc e) end, c, []).

Definition io_gets (A : Type) (f : Context -> A) : IO A :=
  fun c => (Returns (f c), c, []).

Definition io_modify (f : Context -> Context) : IO unit :=
  fun c => (Returns tt, f c, []).

Definition io_call (A : Type) (ev : outcome A -> io_event) (r : outcome A)
  : IO A :=
  fun c => (r, c, [ev r]).

Fixpoint io_for_each (A : Type) (l : list A) (body : A -> IO unit) : IO unit :=
  match l with
  | [] => ret tt
  | a :: l' => body a ;; io_for_each l' body
  end.

Section StepIO.

Variable py_str : value -> pystr.
Variable env : environment.

(** The body of the [try] block of [Agent.step], as [step_try]. *)
Definition step_try_io (game_state : value) : IO value :=
  frame <- io_lift (resolve_frame game_state) ;;
  state_data <- io_lift (residual_state game_state) ;;
  r <- io_call (IoPerception frame state_data)
         (env_perception_step env frame state_data) ;;
  '(observation_dict, slow_thinking_needed) <- io_lift (unpack2 r) ;;
  observation_text <-
    io_lift (py_get observation_dict (lit "description")
               (VStr (py_str observation_dict))) ;;
  io_modify (set_last_observation observation_dict) ;;
  counter <- io_gets step_counter ;;
  let entry :=
    observation_entry
      (dict_get state_data (lit "step_number") (VInt counter))
      observation_text state_data in
  old_memory <- io_gets memory_context ;;
  old_plan <- io_gets current_plan ;;
  recent <- io_gets (fun c => items (recent_actions c)) ;;
  memory_context <-
    io_call (IoMemory old_memory old_plan recent [entry])
      (env_memory_step env old_memory old_plan recent [entry]) ;;
  io_modify (set_memory_context memory_context) ;;
  old_plan <- io_gets current_plan ;;
  current_plan <-
    io_call
      (IoPlanning memory_context old_plan slow_thinking_needed state_data)
      (env_planning_step env memory_context old_plan slow_thinking_needed
         state_data) ;;
  io_modify (set_current_plan current_plan) ;;
  recent_actions' <- io_gets (fun c => items (recent_actions c)) ;;
  raw <-
    io_call
      (IoAction memory_context current_plan observation_text frame
         state_data recent_actions')
      (env_action_step env memory_context current_plan observation_text
         frame state_data recent_actions') ;;
  actions <- io_lift (normalize raw) ;;
  io_for_each actions
    (fun action =>
       io_modify (fun c =>
         set_recent_actions (deque_append (recent_actions c) action) c)) ;;
  io_modify (fun c => set_step_counter (step_counter c + 1) c) ;;
  ret (decision actions observation_dict current_plan memory_context).

(** [Agent.step] in four-module mode, with what can leave it. *)
Definition step_io (game_state : value) (c : Context)
  : outcome value * Context * list io_event :=
  try_except_Exception (step_try_io game_state)
    (fun e =>
       io_call (IoPrint e) (env_print_error env e) ;; ret VNone)
    c.

End StepIO.

Definition io_result (py_str : value -> pystr) (env : environment)
    (game_state : value) (c : Context) : outcome value :=
  fst (fst (step_io py_str env game_state c)).

Definition io_context (py_str : value -> pystr) (env : environment)
    (game_state : value) (c : Context) : Context :=
  snd (fst (step_io py_str env game_state c)).

Definition io_events (py_str : value -> pystr) (env : environment)
    (game_state : value) (c : Context) : list io_event :=
  snd (step_io py_str env game_state c).

(** What a stage call of a tick raised. *)
Definition stage_signal (ev : io_event) : option signal :=
  match ev with
  | IoPerception _ _ (Raises s) => Some s
  | IoMemory _ _ _ _ (Raises s) => Some s
  | IoPlanning _ _ _ _ (Raises s) => Some s
  | IoAction _ _ _ _ _ _ (Raises s) => Some s
  | _ => None
  end.

(** Stages that raise nothing outside [Exception], with a given
    [print]. *)
Definition lift_outcome (A : Type) (r : result A) : outcome A :=
  match r with
  | Ok a => Returns a
  | Raise e => Raises (Exc e)
  end.

Definition env_of (st : stages) (print_error : exn -> outcome unit)
  : environment :=
  {| env_perception_step := fun frame sd =>
       lift_outcome (perception_step st frame sd);
     env_memory_step := fun mc plan recent entries =>
       lift_outcome (memory_step st mc plan recent entries);
     env_planning_step := fun mc plan slow sd =>
       lift_outcome (planning_step st mc plan slow sd);
     env_action_step := fun mc plan text frame sd recent =>
       lift_outcome (action_step st mc plan text frame sd recent);
     env_print_error := print_error |}.

Definition lift_event (ev : event) : io_event :=
  match ev with
  | EvPerception frame sd r => IoPerception frame sd (lift_outcome r)
  | EvMemory mc plan recent entries r =>
      IoMemory mc plan recent entries (lift_outcome r)
  | EvPlanning mc plan slow sd r => IoPlanning mc plan slow sd (lift_outcome r)
  | EvAction mc plan text frame sd recent r =>
      IoAction mc plan text frame sd recent (lift_outcome r)
  | EvPrint e => IoPrint e (Returns tt)
  end.

(** ** The two modes of [Agent.step] *)





(** ** Further cases *)

Module Cases.

Import Scenario.



(** An observation without [description]. *)
Definition bare_stages : stages :=
  {| perception_step :=
       fun _ _ => Ok (VTuple [VDict [(lit "menu", VBool true)]; VBool true]);
     memory_step := memory_step (returning VNone);
     planning_step := planning_step (returning VNone);
     action_step := fun _ _ _ _ _ _ => Ok (button "A") |}.

(** A snapshot whose [frame] is [None] beside a screenshot. *)
Definition null_frame_fields : dict :=
  (lit "frame", VNone) :: visual_fields.





(** A [print] that completes, and one that cannot encode its line. *)
Definition quiet (e : exn) : outcome unit := Returns tt.

Definition encode_error : exn := OtherError (lit "UnicodeEncodeError").

Definition print_fails (e : exn) : outcome unit := Raises (Exc encode_error).

(** The memory stage is interrupted from the keyboard. *)
Definition interrupted : environment :=
  {| env_perception_step :=
       fun _ _ => Returns (VTuple [observation; VBool false]);
     env_memory_step := fun _ _ _ _ => Raises (BaseOnly KeyboardInterrupt);
     env_planning_step := fun _ plan _ _ => Returns plan;
     env_action_step := fun _ _ _ _ _ _ => Returns (button "LEFT");
     env_print_error := quiet |}.


End Cases.

(** * Properties *)

(** ** Strings *)

Section Strings.

Lemma pystr_eqb_eq (a b : pystr) : pystr_eqb a b = true <-> a = b.
Proof.
  unfold pystr_eqb. destruct (list_eq_dec N.eq_dec a b); split;
    congruence.
Qed.

Lemma pystr_eqb_refl (a : pystr) : pystr_eqb a a = true.
Proof. now apply pystr_eqb_eq. Qed.

Lemma split_not_nil (sep : N) (s : pystr) : split sep s <> [].
Proof.
  destruct s as [|c s]; cbn; [discriminate|].
  destruct (c =? sep)%N; [discriminate|].
  destruct (split sep s); discriminate.
Qed.

(** Joining the pieces with the separator gives the string back. *)
Lemma join_split (sep : N) (s : pystr) : join sep (split sep s) = s.
Proof.
  induction s as [|c s IH]; [reflexivity|].
  cbn [split]. destruct (N.eqb_spec c sep) as [->|Hc].
  - pose proof (split_not_nil sep s) as Hn.
    cbn. destruct (split sep s); [contradiction|].
    cbn. now rewrite <- IH.
  - pose proof (split_not_nil sep s) as Hn.
    destruct (split sep s) as [|p ps]; [contradiction|].
    destruct ps; cbn in *; now rewrite <- IH.
Qed.

(** No piece contains the separator. *)
Lemma split_no_sep (sep : N) (s : pystr) :
  Forall (fun p => ~ In sep p) (split sep s).
Proof.
  induction s as [|c s IH]; cbn [split].
  - constructor; [intros []|constructor].
  - destruct (N.eqb_spec c sep) as [->|Hc].
    + constructor; [intros []|assumption].
    + destruct (split sep s) as [|p ps].
      * constructor; [|constructor]. intros [H|[]]. congruence.
      * inversion IH as [|? ? Hp Hps]; subst.
        constructor; [|assumption].
        intros [H|H]; [congruence|contradiction].
Qed.

Lemma drop_space_prefix (s : pystr) :
  exists l, s = l ++ drop_space s /\ forallb is_space l = true.
Proof.
  induction s as [|c s [l [Hl Hs]]]; cbn.
  - now exists [].
  - destruct (is_space c) eqn:Hc.
    + exists (c :: l). cbn. rewrite Hc, Hs. now rewrite <- Hl.
    + now exists [].
Qed.

Lemma drop_space_head (s : pystr) (a : N) (t : pystr) :
  drop_space s = a :: t -> is_space a = false.
Proof.
  induction s as [|c s IH]; cbn; [discriminate|].
  destruct (is_space c) eqn:Hc; [assumption|].
  intros H. now injection H as <- _.
Qed.

Lemma forallb_rev (A : Type) (f : A -> bool) (l : list A) :
  forallb f l = true -> forallb f (rev l) = true.
Proof.
  rewrite !forallb_forall. intros H x Hx. apply H. now apply in_rev.
Qed.

Lemma rstrip_suffix (s : pystr) :
  exists r, s = rstrip s ++ r /\ forallb is_space r = true.
Proof.
  destruct (drop_space_prefix (rev s)) as [l [Hl Hs]].
  exists (rev l). split; [|now apply forallb_rev].
  unfold rstrip. rewrite <- rev_app_distr, <- Hl. now rewrite rev_involutive.
Qed.

Lemma rstrip_last (s : pystr) (d : N) :
  rstrip s <> [] -> is_space (last (rstrip s) d) = false.
Proof.
  unfold rstrip. destruct (drop_space (rev s)) as [|a t] eqn:H.
  - intros Hn. now contradiction Hn.
  - intros _. cbn [rev]. rewrite last_last.
    now apply drop_space_head with (1 := H).
Qed.

(** [strip] removes the whitespace around a string and nothing else. *)
Lemma strip_trims (s : pystr) : trims s (strip s).
Proof.
  destruct (drop_space_prefix s) as [l [Hl Hls]].
  destruct (rstrip_suffix (lstrip s)) as [r [Hr Hrs]].
  exists l, r. fold (lstrip s) in Hl. fold (strip s) in Hr.
  repeat split; try assumption.
  - now rewrite <- Hr.
  - unfold clean_ends. destruct (strip s) as [|a t] eqn:Ht; [exact I|].
    split.
    + apply drop_space_head with (s := s) (t := t ++ r).
      fold (lstrip s). now rewrite Hr.
    + rewrite <- Ht. apply rstrip_last. fold (strip s). now rewrite Ht.
Qed.

Lemma drop_space_spaces (l u : pystr) :
  forallb is_space l = true -> drop_space (l ++ u) = drop_space u.
Proof.
  induction l as [|c l IH]; cbn; [reflexivity|].
  destruct (is_space c); [exact IH|discriminate].
Qed.

Lemma drop_space_all (l : pystr) :
  forallb is_space l = true -> drop_space l = [].
Proof.
  intros H. rewrite <- (app_nil_r l). now rewrite drop_space_spaces.
Qed.

Lemma drop_space_keep (a : N) (u : pystr) :
  is_space a = false -> drop_space (a :: u) = a :: u.
Proof. intros H. cbn. now rewrite H. Qed.

(** The relation [trims] determines its result, which is [strip]'s. *)
Lemma trims_strip (p t : pystr) : trims p t -> t = strip p.
Proof.
  intros (l & r & -> & Hl & Hr & Hc).
  unfold strip, lstrip, rstrip. rewrite (drop_space_spaces l _ Hl).
  destruct t as [|a t].
  - cbn [app]. rewrite (drop_space_all r Hr). reflexivity.
  - destruct Hc as [Ha Hb].
    cbn [app]. rewrite (drop_space_keep a _ Ha).
    change (a :: t ++ r) with ((a :: t) ++ r).
    rewrite rev_app_distr, drop_space_spaces by now apply forallb_rev.
    destruct (exists_last (l := a :: t)) as (t0 & b & Ht); [discriminate|].
    rewrite Ht in Hb |- *. rewrite last_last in Hb.
    rewrite rev_app_distr. cbn [rev app].
    rewrite (drop_space_keep b _ Hb).
    change (b :: rev t0) with (rev [b] ++ rev t0).
    now rewrite <- rev_app_distr, rev_involutive.
Qed.

Lemma split_app_sep (sep : N) (p rest : pystr) :
  ~ In sep p -> split sep (p ++ sep :: rest) = p :: split sep rest.
Proof.
  induction p as [|c p IH]; intros Hp; cbn.
  - now rewrite N.eqb_refl.
  - destruct (N.eqb_spec c sep) as [->|Hc]; [now contradiction Hp; left|].
    rewrite IH; [reflexivity|]. intros H. apply Hp. now right.
Qed.

Lemma split_no_sep_id (sep : N) (p : pystr) :
  ~ In sep p -> split sep p = [p].
Proof.
  induction p as [|c p IH]; intros Hp; cbn; [reflexivity|].
  destruct (N.eqb_spec c sep) as [->|Hc]; [now contradiction Hp; left|].
  rewrite IH; [reflexivity|]. intros H. apply Hp. now right.
Qed.

(** The pieces of a string are determined by the join and by being free
    of the separator. *)
Lemma split_join (sep : N) (pieces : list pystr) :
  pieces <> [] -> Forall (fun p => ~ In sep p) pieces ->
  split sep (join sep pieces) = pieces.
Proof.
  induction pieces as [|p ps IH]; intros Hn Hf; [now contradiction Hn|].
  inversion Hf as [|? ? Hp Hps]; subst.
  destruct ps as [|q qs].
  - cbn. now apply split_no_sep_id.
  - change (join sep (p :: q :: qs)) with (p ++ sep :: join sep (q :: qs)).
    rewrite split_app_sep by assumption.
    rewrite IH; [reflexivity|discriminate|assumption].
Qed.

Lemma Forall2_trims_strip (pieces trimmed : list pystr) :
  Forall2 trims pieces trimmed -> trimmed = map strip pieces.
Proof.
  induction 1 as [|p t ps ts Hpt _ IH]; cbn; [reflexivity|].
  now rewrite (trims_strip Hpt), IH.
Qed.

Lemma Forall2_strip (pieces : list pystr) :
  Forall2 trims pieces (map strip pieces).
Proof.
  induction pieces; cbn; constructor; [apply strip_trims|assumption].
Qed.

(** The comprehension of [normalize] as a map and a filter. *)
Lemma comprehension_filter (pieces : list pystr) :
  flat_map
    (fun btn => if truthy (VStr (strip btn)) then [VStr (strip btn)] else [])
    pieces
  = map VStr (filter (fun t => negb (pystr_eqb t [])) (map strip pieces)).
Proof.
  induction pieces as [|p ps IH]; [reflexivity|].
  cbn [flat_map map filter]. rewrite IH. cbn [truthy].
  now destruct (pystr_eqb (strip p) []).
Qed.

(** On a string, [normalize] computes the tokens of the policy, and
    they are the only ones. *)
Lemma normalize_str_tokens (s : pystr) :
  exists toks,
    normalize (VStr s) = Ok (map VStr toks) /\ tokens_of s toks /\
    forall toks', tokens_of s toks' -> toks' = toks.
Proof.
  exists (filter (fun t => negb (pystr_eqb t [])) (map strip (split comma s))).
  split; [|split].
  - cbn [normalize]. now rewrite comprehension_filter.
  - exists (split comma s), (map strip (split comma s)).
    repeat split.
    + apply split_not_nil.
    + apply join_split.
    + apply split_no_sep.
    + apply Forall2_strip.
  - intros toks' (pieces & trimmed & Hn & Hj & Hf & Ht & ->).
    rewrite <- Hj, (split_join comma Hn Hf).
    now rewrite (Forall2_trims_strip Ht).
Qed.

End Strings.

(** ** The bounded buffer *)

Section Deque.

Lemma lastn_all (A : Type) (n : nat) (l : list A) :
  length l <= n -> lastn n l = l.
Proof.
  intros H. unfold lastn.
  replace (length l - n) with 0 by lia. reflexivity.
Qed.

Lemma lastn_length (A : Type) (n : nat) (l : list A) :
  length (lastn n l) = Nat.min n (length l).
Proof. unfold lastn. rewrite length_skipn. lia. Qed.

Lemma lastn_app_l (A : Type) (n : nat) (a c : list A) :
  n <= length c -> lastn n (a ++ c) = lastn n c.
Proof.
  intros H. unfold lastn. rewrite length_app.
  replace (length a + length c - n) with (length a + (length c - n)) by lia.
  rewrite skipn_app, Nat.add_comm, Nat.add_sub, skipn_all2 by lia.
  reflexivity.
Qed.

Lemma lastn_app_r (A : Type) (n : nat) (a b : list A) :
  lastn n (lastn n a ++ b) = lastn n (a ++ b).
Proof.
  destruct (Nat.le_gt_cases (length a) n) as [H|H].
  - now rewrite (lastn_all a H).
  - rewrite <- (firstn_skipn (length a - n) a) at 2.
    fold (lastn n a).
    rewrite <- app_assoc, (lastn_app_l _ (lastn n a ++ b)); [reflexivity|].
    rewrite length_app, lastn_length. lia.
Qed.

Lemma deque_append_maxlen (d : deque) (x : value) :
  maxlen (deque_append d x) = maxlen d.
Proof. unfold deque_append. destruct (maxlen d); reflexivity. Qed.

Lemma deque_append_items (n : nat) (d : deque) (x : value) :
  maxlen d = Some n -> length (items d) <= n ->
  items (deque_append d x) = lastn n (items d ++ [x]).
Proof.
  intros Hm Hl. unfold deque_append. rewrite Hm. cbn [items].
  unfold lastn. rewrite length_app. cbn [length].
  destruct (Nat.ltb_spec n (length (items d) + 1)).
  - replace (length (items d) + 1 - n) with 1 by lia. reflexivity.
  - replace (length (items d) + 1 - n) with 0 by lia. reflexivity.
Qed.

Lemma deque_append_bounded (n : nat) (d : deque) (x : value) :
  maxlen d = Some n -> length (items d) <= n ->
  length (items (deque_append d x)) <= n.
Proof.
  intros Hm Hl. rewrite (deque_append_items d x Hm Hl), lastn_length. lia.
Qed.

Lemma deque_extend_maxlen (toks : list value) (d : deque) :
  maxlen (fold_left deque_append toks d) = maxlen d.
Proof.
  revert d. induction toks as [|x toks IH]; intros d; cbn; [reflexivity|].
  now rewrite IH, deque_append_maxlen.
Qed.

(** Appending [toks] one by one leaves the last [n] of everything. *)
Lemma deque_extend_items (n : nat) (toks : list value) (d : deque) :
  maxlen d = Some n -> length (items d) <= n ->
  items (fold_left deque_append toks d) = lastn n (items d ++ toks).
Proof.
  revert d. induction toks as [|x toks IH]; intros d Hm Hl; cbn.
  - now rewrite app_nil_r, lastn_all.
  - rewrite IH.
    + rewrite (deque_append_items d x Hm Hl), lastn_app_r, <- app_assoc.
      reflexivity.
    + now rewrite deque_append_maxlen.
    + now apply deque_append_bounded.
Qed.

Lemma deque_extend_bounded (n : nat) (toks : list value) (d : deque) :
  maxlen d = Some n -> length (items d) <= n ->
  length (items (fold_left deque_append toks d)) <= n.
Proof.
  intros Hm Hl. rewrite (deque_extend_items toks d Hm Hl), lastn_length. lia.
Qed.

End Deque.

Section StepFacts.

Local Arguments resolve_frame : simpl never.
Local Arguments residual_state : simpl never.
Local Arguments unpack2 : simpl never.
Local Arguments py_get : simpl never.
Local Arguments normalize : simpl never.
Local Arguments lit : simpl never.
Local Arguments dict_get : simpl never.
Local Arguments observation_entry : simpl never.
Local Arguments decision : simpl never.

Variable py_str : value -> pystr.
Variable st : stages.

Lemma for_each_append (acts : list value) (c : Context) :
  for_each acts
    (fun action =>
       modify (fun c =>
         set_recent_actions (deque_append (recent_actions c) action) c)) c
  = (Ok tt,
     set_recent_actions (fold_left deque_append acts (recent_actions c)) c,
     []).
Proof.
  revert c. induction acts as [|a acts IH]; intros c.
  - destruct c; reflexivity.
  - cbn. rewrite IH. reflexivity.
Qed.

Local Arguments for_each : simpl never.

Ltac close_tick H k := injection H as <- <- <-; eapply k; eassumption.

Lemma step_tick_eq (game_state : value) (c c' : Context)
    (r : result value) (t : list event) :
  step py_str st game_state c = (r, c', t) ->
  tick py_str st game_state c r c' t.
Proof.
  unfold step, step_m, step_try. cbn. intros H.
  destruct (resolve_frame game_state) as [frame|e] eqn:Hf; cbn in H;
    [|close_tick H tick_snapshot_error].
  destruct (residual_state game_state) as [sd|e] eqn:Hs; cbn in H;
    [|close_tick H tick_items_error].
  destruct (perception_step st frame sd) as [r0|e] eqn:Hp; cbn in H;
    [|close_tick H tick_perception_raises].
  destruct (unpack2 r0) as [[obs slow]|e] eqn:Hu; cbn in H;
    [|close_tick H tick_unpack_error].
  destruct (py_get obs (lit "description") (VStr (py_str obs)))
    as [text|e] eqn:Hd; cbn in H;
    [|close_tick H tick_description_error].
  destruct (memory_step st _ _ _ _) as [mc|e] eqn:Hm in H; cbn in H;
    [|close_tick H tick_memory_raises].
  destruct (planning_step st _ _ _ _) as [plan|e] eqn:Hpl in H; cbn in H;
    [|close_tick H tick_planning_raises].
  destruct (action_step st _ _ _ _ _ _) as [raw|e] eqn:Ha in H; cbn in H;
    [|close_tick H tick_action_raises].
  destruct (normalize raw) as [acts|e] eqn:Hn; cbn in H;
    [|close_tick H tick_normalize_error].
  rewrite for_each_append in H. cbn in H.
  close_tick H tick_done.
Qed.

(** Every call of [step] follows one of the paths of [tick]. *)
Lemma step_tick (game_state : value) (c : Context) :
  tick py_str st game_state c
    (step_result py_str st game_state c)
    (step_context py_str st game_state c)
    (step_events py_str st game_state c).
Proof.
  unfold step_result, step_context, step_events.
  destruct (step py_str st game_state c) as [[r c'] t] eqn:H.
  now apply step_tick_eq.
Qed.

End StepFacts.

(** Case analysis on the path a call of [step] takes. *)
Ltac step_cases py_str st gs c :=
  unfold step_result, step_context, step_events in *;
  let E := fresh "E" in
  destruct (step py_str st gs c) as [[? ?] ?] eqn:E;
  apply step_tick_eq in E; cbn [fst snd] in *; destruct E.

Ltac in_cases H :=
  cbn [In] in H;
  repeat match type of H with
         | _ \/ _ => destruct H as [H|H]
         | False => contradiction
         end.

Ltac pick_event := cbn [In]; repeat (first [left; reflexivity | right]).

Ltac witness_events :=
  unfold observed, remembered, planned, acted;
  repeat match goal with
         | |- exists _, _ => eexists
         | |- _ /\ _ => split
         | |- In _ _ => pick_event
         | |- unpack2 _ = _ => eassumption
         | |- normalize _ = _ => eassumption
         | |- _ = _ => reflexivity
         end.

(** ** One tick *)

Section Tick.

Variable py_str : value -> pystr.
Variable st : stages.
Variable game_state : value.
Variable c : Context.

(** A tick either fails, leaving history and counter alone, or commits
    the outputs of its four stages. *)
Lemma step_outcome :
  (step_result py_str st game_state c = Ok VNone /\
   recent_actions (step_context py_str st game_state c) = recent_actions c /\
   step_counter (step_context py_str st game_state c) = step_counter c /\
   (memory_context (step_context py_str st game_state c) = memory_context c
    \/ remembered (step_events py_str st game_state c)
         (memory_context (step_context py_str st game_state c))) /\
   exists e, In (EvPrint e) (step_events py_str st game_state c))
  \/
  (exists acts obs plan mc raw,
     step_result py_str st game_state c = Ok (decision acts obs plan mc) /\
     step_context py_str st game_state c = after_action obs mc plan acts c /\
     observed (step_events py_str st game_state c) obs /\
     remembered (step_events py_str st game_state c) mc /\
     planned (step_events py_str st game_state c) plan /\
     acted (step_events py_str st game_state c) raw /\
     normalize raw = Ok acts /\
     stage_raised (step_events py_str st game_state c) = false).
Proof.
  step_cases py_str st game_state c;
    [left; repeat split;
     [try first [left; reflexivity | right; cbn; witness_events]..
     | eexists; pick_event]
     .. | right; do 5 eexists; repeat split; witness_events].
Qed.


(** C9: the entry handed to the memory stage carries as [frame_id] the
    [step_number] of the residual state when that key is present, and
    the step counter the tick started with when it is absent. *)
Theorem C9_frame_id (old plan : value) (recent entries : list value)
    (r : result value) :
  In (EvMemory old plan recent entries r)
    (step_events py_str st game_state c) ->
  exists sd text,
    residual_state game_state = Ok sd /\
    entries =
      [VDict [ (lit "frame_id",
                match dict_lookup sd (lit "step_number") with
                | Some n => n
                | None => VInt (step_counter c)
                end);
               (lit "observation", text);
               (lit "state", VDict sd) ]].
Proof.
  intros Hin.
  step_cases py_str st game_state c; in_cases Hin; try discriminate;
    injection Hin as <- <- <- <- <-; eexists; eexists;
    (split; [eassumption|reflexivity]).
Qed.





End Tick.

(** ** The snapshot *)

Section Snapshot.

Variable py_str : value -> pystr.
Variable st : stages.
Variable c : Context.

(** The frame expression on a mapping, by cases on its first operand. *)
Lemma resolve_frame_dict (d : dict) :
  resolve_frame (VDict d)
  = if truthy (dict_get d (lit "frame") VNone)
    then Ok (dict_get d (lit "frame") VNone)
    else py_get (dict_get d (lit "visual") (VDict [])) (lit "screenshot")
           VNone.
Proof. reflexivity. Qed.

Lemma resolve_frame_absent (d : dict) :
  dict_lookup d (lit "frame") = None ->
  resolve_frame (VDict d)
  = py_get (dict_get d (lit "visual") (VDict [])) (lit "screenshot") VNone.
Proof.
  intros H. rewrite resolve_frame_dict. unfold dict_get at 1. now rewrite H.
Qed.

Lemma residual_state_dict (d : dict) :
  residual_state (VDict d)
  = Ok (filter (fun kv => negb (pystr_eqb (fst kv) (lit "frame"))) d).
Proof. reflexivity. Qed.

Lemma dict_lookup_without (ks : list pystr) (d : dict) (k : pystr) :
  In k ks -> dict_lookup (dict_without ks d) k = None.
Proof.
  intros Hk. induction d as [|[k' v] d IH]; [reflexivity|].
  cbn [dict_without filter fst]. fold (dict_without ks d).
  destruct (existsb (pystr_eqb k') ks) eqn:Hex; cbn [negb]; [exact IH|].
  cbn [dict_lookup]. destruct (pystr_eqb k' k) eqn:Hkk; [|exact IH].
  apply pystr_eqb_eq in Hkk. subst k'.
  assert (existsb (pystr_eqb k) ks = true); [|congruence].
  apply existsb_exists. exists k. split; [assumption|apply pystr_eqb_refl].
Qed.




End Snapshot.

(** ** Runs *)

Section Runs.

Variable py_str : value -> pystr.

(** A tick appends the actions it returns to the history. *)
Lemma step_recent_actions (st : stages) (gs : value) (c : Context) :
  recent_actions (step_context py_str st gs c)
  = fold_left deque_append (tick_actions py_str st gs c) (recent_actions c).
Proof.
  unfold tick_actions.
  destruct (step_outcome py_str st gs c)
    as [(Hr & Hra & _)|(acts & obs & plan & mc & raw & Hr & Hc & _)];
    rewrite Hr; [exact Hra|now rewrite Hc].
Qed.

(** The history after a run is the bounded tail of everything the run
    returned. *)
Lemma run_recent_actions (n : nat) (ticks : list (stages * value))
    (c : Context) :
  maxlen (recent_actions c) = Some n ->
  length (items (recent_actions c)) <= n ->
  maxlen (recent_actions (run py_str ticks c)) = Some n /\
  items (recent_actions (run py_str ticks c))
  = lastn n (items (recent_actions c) ++ run_actions py_str ticks c).
Proof.
  revert c. induction ticks as [|[st gs] ticks IH]; intros c Hm Hl.
  - cbn. split; [assumption|]. now rewrite app_nil_r, lastn_all.
  - cbn [run run_actions].
    pose proof (step_recent_actions st gs c) as Hs.
    destruct (IH (step_context py_str st gs c)) as [IHm IHi].
    + now rewrite Hs, deque_extend_maxlen.
    + rewrite Hs. now apply deque_extend_bounded.
    + split; [assumption|].
      rewrite IHi, Hs, (deque_extend_items _ _ Hm Hl), lastn_app_r.
      now rewrite app_assoc.
Qed.


(** C2: the action history never holds more than its capacity, along
    every run of [step] calls and for every sequence of appended tokens;
    once more tokens than the capacity have been appended to an empty
    buffer, it holds exactly the last [n] of them in their order, the
    older ones having been evicted. *)
Theorem C2_recent_actions_bounded :
  (forall ticks,
     length (items (recent_actions (run py_str ticks Agent_init))) <= 25 /\
     items (recent_actions (run py_str ticks Agent_init))
     = lastn 25 (run_actions py_str ticks Agent_init)) /\
  (forall n toks,
     length (items (fold_left deque_append toks (deque_new (Some n)))) <= n) /\
  (forall n toks,
     n < length toks ->
     length (items (fold_left deque_append toks (deque_new (Some n)))) = n /\
     exists evicted,
       toks
       = evicted ++ items (fold_left deque_append toks (deque_new (Some n)))).
Proof.
  split; [|split].
  - intros ticks.
    destruct (@run_recent_actions 25 ticks Agent_init) as [_ Hi];
      [reflexivity|cbn; lia|].
    rewrite Hi. cbn [Agent_init recent_actions deque_new items app].
    split; [rewrite lastn_length; lia|reflexivity].
  - intros n toks. apply deque_extend_bounded; [reflexivity|cbn; lia].
  - intros n toks Hk.
    rewrite (@deque_extend_items n toks (deque_new (Some n)))
      by (reflexivity || cbn; lia).
    cbn [deque_new items app]. split.
    + rewrite lastn_length. lia.
    + exists (firstn (length toks - n) toks). unfold lastn.
      now rewrite firstn_skipn.
Qed.

(** C10: the capacity is 25: the history of a reachable belief state
    has [maxlen] 25 and at most 25 items, and appending to it when it
    holds 25 removes the oldest item and nothing else. *)
Theorem C10_capacity_25 (ticks : list (stages * value)) :
  maxlen (recent_actions (run py_str ticks Agent_init)) = Some 25 /\
  length (items (recent_actions (run py_str ticks Agent_init))) <= 25 /\
  forall x,
    length (items (recent_actions (run py_str ticks Agent_init))) = 25 ->
    exists oldest rest,
      items (recent_actions (run py_str ticks Agent_init)) = oldest :: rest /\
      items (deque_append (recent_actions (run py_str ticks Agent_init)) x)
      = rest ++ [x] /\
      length
        (items (deque_append (recent_actions (run py_str ticks Agent_init)) x))
      = 25.
Proof.
  destruct (@run_recent_actions 25 ticks Agent_init) as [Hm Hi];
    [reflexivity|cbn; lia|].
  split; [assumption|split].
  - rewrite Hi, lastn_length. lia.
  - intros x Hl.
    destruct (items (recent_actions (run py_str ticks Agent_init)))
      as [|oldest rest] eqn:Hd; [discriminate|].
    exists oldest, rest. split; [reflexivity|].
    unfold deque_append. rewrite Hm, Hd. cbn [items].
    cbn [length] in Hl. injection Hl as Hl.
    assert (Hlen : length ((oldest :: rest) ++ [x]) = 26)
      by (rewrite length_app; cbn [length]; lia).
    rewrite Hlen. cbn [Nat.ltb Nat.leb app tl].
    split; [reflexivity|]. rewrite length_app. cbn [length]. lia.
Qed.


(** C8: [memory_context] is not [None] after [__init__]; a tick either
    leaves it as it was or replaces it by what the memory stage
    returned in that tick; so, with memory stages that keep their
    contract, it is not [None] after any run. *)
Theorem C8_memory_context_not_none :
  memory_context Agent_init <> VNone /\
  (forall st gs c,
     memory_context (step_context py_str st gs c) = memory_context c \/
     exists old plan recent entries,
       memory_step st old plan recent entries
       = Ok (memory_context (step_context py_str st gs c))) /\
  (forall ticks,
     Forall (fun t => memory_contract (fst t)) ticks ->
     memory_context (run py_str ticks Agent_init) <> VNone).
Proof.
  assert (Hstep : forall st gs c,
     memory_context (step_context py_str st gs c) = memory_context c \/
     exists old plan recent entries,
       memory_step st old plan recent entries
       = Ok (memory_context (step_context py_str st gs c))).
  { intros st gs c.
    step_cases py_str st gs c;
      try (left; reflexivity); right; do 4 eexists; eassumption. }
  split; [discriminate|split; [exact Hstep|]].
  intros ticks.
  assert (Hinit : memory_context Agent_init <> VNone) by discriminate.
  revert Hinit. generalize Agent_init as c.
  induction ticks as [|[st gs] ticks IH]; intros c Hc Hall; [exact Hc|].
  inversion Hall as [|? ? Hst Hrest]; subst. cbn [run].
  apply IH; [|assumption].
  destruct (Hstep st gs c) as [->|(old & plan & recent & entries & Hm)];
    [assumption|].
  now apply (Hst old plan recent entries).
Qed.

End Runs.

(** ** Normalisation of the action result *)

(** C3: [None] becomes the empty list; a string becomes its tokens, cut
    at the commas, trimmed, the empty ones dropped, in order; a list or
    tuple becomes the list of its elements, unsplit; and the decision of a
    tick carries the normalised result of its action stage. *)
Theorem C3_normalize :
  normalize VNone = Ok [] /\
  (forall s, exists toks,
      normalize (VStr s) = Ok (map VStr toks) /\ tokens_of s toks /\
      forall toks', tokens_of s toks' -> toks' = toks) /\
  normalize (VStr (lit "A, B ,C"))
  = Ok [VStr (lit "A"); VStr (lit "B"); VStr (lit "C")] /\
  normalize (VStr (lit "")) = Ok [] /\
  (forall l, normalize (VList l) = Ok l /\ normalize (VTuple l) = Ok l) /\
  normalize (VList [VStr (lit "UP"); VStr (lit "UP")])
  = Ok [VStr (lit "UP"); VStr (lit "UP")] /\
  (forall py_str st gs c acts obs plan mc,
      step_result py_str st gs c = Ok (decision acts obs plan mc) ->
      exists raw,
        acted (step_events py_str st gs c) raw /\ normalize raw = Ok acts).
Proof.
  split; [reflexivity|].
  split; [exact normalize_str_tokens|].
  split; [reflexivity|].
  split; [reflexivity|].
  split; [now split|].
  split; [reflexivity|].
  intros py_str st gs c acts obs plan mc Hr.
  destruct (step_outcome py_str st gs c)
    as [(Hn & _)|(acts' & obs' & plan' & mc' & raw & Hd & _ & _ & _ & _ & Ha & Hn & _)].
  - rewrite Hn in Hr. discriminate.
  - rewrite Hd in Hr. injection Hr as <- _ _ _. now exists raw.
Qed.

(** * The scenario, evaluated *)

Section Evaluated.

Import Scenario.

(** Empty history, no plan, the action stage answers [LEFT]. *)
Example tick_left :
  step py_str (returning (button "LEFT")) snapshot Agent_init
  = (Ok (decision [button "LEFT"] observation VNone
           (VStr (lit "met the professor"))),
     {| memory_context := VStr (lit "met the professor");
        current_plan := VNone;
        recent_actions := Deque (Some 25) [button "LEFT"];
        last_observation := observation;
        step_counter := 1 |},
     [ EvPerception image residual (Ok (VTuple [observation; VBool false]));
       EvMemory (VStr (lit "Initialized memory context")) VNone [] [entry]
         (Ok (VStr (lit "met the professor")));
       EvPlanning (VStr (lit "met the professor")) VNone (VBool false)
         residual (Ok VNone);
       EvAction (VStr (lit "met the professor")) VNone
         (VStr (lit "Littleroot Town")) image residual []
         (Ok (button "LEFT")) ]).
Proof. reflexivity. Qed.

(** The memory stage raises after perception has returned. *)
Example tick_memory_fails :
  step py_str memory_fails snapshot Agent_init
  = (Ok VNone,
     {| memory_context := VStr (lit "Initialized memory context");
        current_plan := VNone;
        recent_actions := Deque (Some 25) [];
        last_observation := observation;
        step_counter := 0 |},
     [ EvPerception image residual (Ok (VTuple [observation; VBool false]));
       EvMemory (VStr (lit "Initialized memory context")) VNone [] [entry]
         (Raise backend_error);
       EvPrint backend_error ]).
Proof. reflexivity. Qed.

(** The perception stage raises: nothing is written. *)
Example tick_perception_fails :
  step py_str perception_fails snapshot Agent_init
  = (Ok VNone, Agent_init,
     [EvPerception image residual (Raise backend_error);
      EvPrint backend_error]).
Proof. reflexivity. Qed.

(** A present but falsy [frame] gives way to the screenshot, as [or]
    does. *)
Example falsy_frame_falls_through :
  resolve_frame
    (VDict [(lit "frame", VNone);
            (lit "visual", VDict [(lit "screenshot", image)])])
  = Ok image.
Proof. reflexivity. Qed.

(** A [visual] that is not a mapping makes the tick fail when the frame
    is not at top level. *)
Example visual_none_fails :
  step py_str (returning VNone) (VDict [(lit "visual", VNone)]) Agent_init
  = (Ok VNone, Agent_init, [EvPrint AttributeError]).
Proof. reflexivity. Qed.

(** An action result that cannot be iterated makes the tick fail after
    the first three slots were written. *)
Example action_result_not_iterable :
  normalize (VInt 3) = Raise TypeError.
Proof. reflexivity. Qed.



Lemma returning_keeps_contract (raw : value) :
  memory_contract (returning raw).
Proof. intros old plan recent entries mc H. injection H as <-. discriminate. Qed.

Lemma memory_fails_keeps_contract : memory_contract memory_fails.
Proof. intros old plan recent entries mc H. discriminate H. Qed.


(** C2 with capacity two and three tokens. *)
Lemma C2_eviction_witness :
  length
    (items
       (fold_left deque_append [button "A"; button "B"; button "C"]
          (deque_new (Some 2)))) = 2 /\
  exists evicted,
    [button "A"; button "B"; button "C"]
    = evicted
      ++ items
           (fold_left deque_append [button "A"; button "B"; button "C"]
              (deque_new (Some 2))).
Proof.
  apply (proj2 (proj2 (@C2_recent_actions_bounded py_str))). cbn. lia.
Defined.

(** C3 at the tick that answers [LEFT]. *)
Lemma C3_step_witness :
  exists raw,
    acted (step_events py_str (returning (button "LEFT")) snapshot Agent_init)
      raw /\
    normalize raw = Ok [button "LEFT"].
Proof.
  refine (proj2 (proj2 (proj2 (proj2 (proj2 (proj2 C3_normalize)))))
            py_str (returning (button "LEFT")) snapshot Agent_init
            [button "LEFT"] observation VNone
            (VStr (lit "met the professor")) _).
  reflexivity.
Defined.





(** C8 along a tick that succeeds and one that fails. *)
Lemma C8_run_witness :
  memory_context Agent_init <> VNone /\
  memory_context (run py_str two_ticks Agent_init) <> VNone.
Proof.
  split; [exact (proj1 (@C8_memory_context_not_none py_str))|].
  apply (proj2 (proj2 (@C8_memory_context_not_none py_str))).
  repeat constructor.
  - apply returning_keeps_contract.
  - apply memory_fails_keeps_contract.
Defined.

(** C9 at a snapshot that carries [step_number] 7. *)
Lemma C9_frame_id_witness :
  exists sd text,
    residual_state snapshot = Ok sd /\
    [entry] =
      [VDict [ (lit "frame_id",
                match dict_lookup sd (lit "step_number") with
                | Some n => n
                | None => VInt (step_counter Agent_init)
                end);
               (lit "observation", text);
               (lit "state", VDict sd) ]].
Proof.
  refine (@C9_frame_id py_str (returning (button "LEFT")) snapshot Agent_init
            (VStr (lit "Initialized memory context")) VNone [] [entry]
            (Ok (VStr (lit "met the professor"))) _).
  vm_compute. right. left. reflexivity.
Defined.

(** C10 when the history holds twenty-five presses. *)
Lemma C10_eviction_witness :
  exists oldest rest,
    items (recent_actions (run py_str full_history Agent_init))
    = oldest :: rest /\
    items
      (deque_append (recent_actions (run py_str full_history Agent_init))
         (button "B"))
    = rest ++ [button "B"] /\
    length
      (items
         (deque_append (recent_actions (run py_str full_history Agent_init))
            (button "B")))
    = 25.
Proof.
  apply (proj2 (proj2 (@C10_capacity_25 py_str full_history))).
  reflexivity.
Defined.

End Evaluated.

(** * Further properties of [Agent.step] *)

(** ** The order and the inputs of the stage calls *)

Section Flow.

Variable py_str : value -> pystr.
Variable st : stages.
Variable game_state : value.
Variable c : Context.


(** X2: the memory stage is handed the belief state as the tick found
    it: the memory context, the plan and the action history from before
    the tick, and exactly one entry. *)
Theorem X2_memory_inputs (old plan : value) (recent entries : list value)
    (r : result value) :
  In (EvMemory old plan recent entries r)
    (step_events py_str st game_state c) ->
  old = memory_context c /\ plan = current_plan c /\
  recent = items (recent_actions c) /\ length entries = 1.
Proof.
  intros Hin.
  step_cases py_str st game_state c; in_cases Hin; try discriminate;
    injection Hin as <- <- <- <- <-; now repeat split.
Qed.

(** X3: the planning stage is handed the memory context the memory stage
    returned in this tick, the plan from before the tick, the flag the
    perception stage returned and the residual state; when it returns the
    plan it was handed, [current_plan] after the tick is what it was
    before. *)
Theorem X3_planning_inputs (mc old slow : value) (sd : dict)
    (r : result value) :
  In (EvPlanning mc old slow sd r) (step_events py_str st game_state c) ->
  remembered (step_events py_str st game_state c) mc /\
  old = current_plan c /\
  (exists frame sd' out obs,
     In (EvPerception frame sd' (Ok out))
       (step_events py_str st game_state c) /\
     unpack2 out = Ok (obs, slow)) /\
  residual_state game_state = Ok sd /\
  (r = Ok old ->
   current_plan (step_context py_str st game_state c) = current_plan c).
Proof.
  intros Hin.
  step_cases py_str st game_state c; in_cases Hin; try discriminate;
    injection Hin as <- <- <- <- <-;
    (split; [witness_events|]);
    (split; [reflexivity|]);
    (split; [witness_events|]);
    (split; [assumption|]);
    intros Hr; try discriminate Hr; now injection Hr as <-.
Qed.

(** X4: the action stage is handed the memory context and the plan
    returned in this tick, the resolved frame, the residual state, and the
    action history from before the tick, to which nothing of this tick has
    been added yet. *)
Theorem X4_action_inputs (mc plan text frame : value) (sd : dict)
    (recent : list value) (r : result value) :
  In (EvAction mc plan text frame sd recent r)
    (step_events py_str st game_state c) ->
  remembered (step_events py_str st game_state c) mc /\
  planned (step_events py_str st game_state c) plan /\
  resolve_frame game_state = Ok frame /\
  residual_state game_state = Ok sd /\
  recent = items (recent_actions c).
Proof.
  intros Hin.
  step_cases py_str st game_state c; in_cases Hin; try discriminate;
    injection Hin as <- <- <- <- <- <- <-;
    (split; [witness_events|]);
    (split; [witness_events|]);
    now repeat split.
Qed.

(** X5: the observation text given to the action stage, and stored in
    the entry given to the memory stage, is the [description] of the
    observation when it has one and [str] of the observation otherwise;
    either stage is called only when the observation is a mapping. *)
Theorem X5_observation_text :
  (forall mc plan text frame sd recent r,
     In (EvAction mc plan text frame sd recent r)
       (step_events py_str st game_state c) ->
     exists fields,
       observed (step_events py_str st game_state c) (VDict fields) /\
       text = match dict_lookup fields (lit "description") with
              | Some d => d
              | None => VStr (py_str (VDict fields))
              end) /\
  (forall old plan recent entries r,
     In (EvMemory old plan recent entries r)
       (step_events py_str st game_state c) ->
     exists fields frame_id sd,
       observed (step_events py_str st game_state c) (VDict fields) /\
       entries =
         [observation_entry frame_id
            match dict_lookup fields (lit "description") with
            | Some d => d
            | None => VStr (py_str (VDict fields))
            end sd]).
Proof.
  split.
  - intros mc plan text frame sd recent r Hin.
    step_cases py_str st game_state c; in_cases Hin; try discriminate;
      injection Hin as <- <- <- <- <- <- <-;
      match goal with
      | H : py_get ?obs _ _ = Ok _ |- _ =>
          destruct obs; try discriminate H; cbn in H; injection H as <-
      end;
      eexists; (split; [witness_events|reflexivity]).
  - intros old plan recent entries r Hin.
    step_cases py_str st game_state c; in_cases Hin; try discriminate;
      injection Hin as <- <- <- <- <-;
      match goal with
      | H : py_get ?obs _ _ = Ok _ |- _ =>
          destruct obs; try discriminate H; cbn in H; injection H as <-
      end;
      do 3 eexists; (split; [witness_events|reflexivity]).
Qed.

End Flow.

(** ** Snapshots and stage results the tick cannot use *)

Section Edges.

Variable py_str : value -> pystr.
Variable st : stages.
Variable c : Context.


(** A tick reads its snapshot only through the resolved frame and the
    residual state. *)
Lemma step_reads_frame_and_state (gs1 gs2 : value) :
  resolve_frame gs1 = resolve_frame gs2 ->
  residual_state gs1 = residual_state gs2 ->
  step py_str st gs1 c = step py_str st gs2 c.
Proof.
  intros Hf Hs. unfold step, step_m, step_try. now rewrite Hf, Hs.
Qed.

Lemma dict_lookup_without_other (ks : list pystr) (d : dict) (k : pystr) :
  ~ In k ks -> dict_lookup (dict_without ks d) k = dict_lookup d k.
Proof.
  intros Hk. induction d as [|[k' v] d IH]; [reflexivity|].
  cbn [dict_without filter fst]. fold (dict_without ks d).
  destruct (existsb (pystr_eqb k') ks) eqn:Hex; cbn [negb dict_lookup].
  - destruct (pystr_eqb k' k) eqn:Hkk; [|exact IH].
    apply pystr_eqb_eq in Hkk. subst k'.
    apply existsb_exists in Hex. destruct Hex as (x & Hx & Hkx).
    apply pystr_eqb_eq in Hkx. subst x. contradiction.
  - now rewrite IH.
Qed.

Lemma dict_without_frame (d : dict) :
  dict_without [lit "frame"] d
  = filter (fun kv => negb (pystr_eqb (fst kv) (lit "frame"))) d.
Proof.
  unfold dict_without. apply filter_ext. intros [k v].
  cbn [existsb fst]. now rewrite orb_false_r.
Qed.

Lemma filter_twice (A : Type) (f : A -> bool) (l : list A) :
  filter f (filter f l) = filter f l.
Proof.
  induction l as [|a l IH]; [reflexivity|].
  cbn [filter]. destruct (f a) eqn:Ha; [|exact IH].
  cbn [filter]. now rewrite Ha, IH.
Qed.

Lemma residual_without_frame (d : dict) :
  residual_state (VDict (dict_without [lit "frame"] d))
  = residual_state (VDict d).
Proof.
  rewrite !residual_state_dict, dict_without_frame. now rewrite filter_twice.
Qed.


(** X7: a snapshot whose top-level [frame] is falsy ([None], zero,
    empty) is processed exactly as the same snapshot without the [frame]
    key: same result, same belief state, same stage calls. *)
Theorem X7_falsy_frame_as_absent (d : dict) :
  truthy (dict_get d (lit "frame") VNone) = false ->
  step py_str st (VDict d) c
  = step py_str st (VDict (dict_without [lit "frame"] d)) c.
Proof.
  intros Hf. apply step_reads_frame_and_state.
  - rewrite (resolve_frame_dict d), Hf.
    rewrite resolve_frame_absent by (apply dict_lookup_without; now left).
    unfold dict_get at 2.
    rewrite dict_lookup_without_other; [reflexivity|].
    intros [H|[]]. discriminate H.
  - symmetry. apply residual_without_frame.
Qed.


(** X9: the state handed to the perception, planning and action stages
    has no [frame] key, agrees with the snapshot on every other key (so
    [visual] and the screenshot under it stay), and keeps the order of the
    snapshot's keys. *)
Theorem X9_residual_state (d : dict) (ev : event) (sd : dict) :
  In ev (step_events py_str st (VDict d) c) ->
  state_data_of ev = Some sd ->
  dict_lookup sd (lit "frame") = None /\
  (forall k, k <> lit "frame" -> dict_lookup sd k = dict_lookup d k) /\
  map fst sd
  = filter (fun k => negb (pystr_eqb k (lit "frame"))) (map fst d).
Proof.
  intros Hin Hsd.
  assert (Hres : sd = dict_without [lit "frame"] d).
  { assert (H : residual_state (VDict d) = Ok sd).
    { step_cases py_str st (VDict d) c; in_cases Hin; subst ev;
        cbn in Hsd; try discriminate; now injection Hsd as <-. }
    rewrite residual_state_dict in H. injection H as <-.
    symmetry. apply dict_without_frame. }
  subst sd. split; [|split].
  - apply dict_lookup_without. now left.
  - intros k Hk. apply dict_lookup_without_other.
    intros [H|[]]. now apply Hk.
  - clear Hin Hsd. rewrite dict_without_frame.
    induction d as [|[k v] d IH]; [reflexivity|].
    cbn [filter fst map].
    destruct (pystr_eqb k (lit "frame")); cbn [negb map fst];
      now rewrite IH.
Qed.


End Edges.

(** ** What a tick leaves behind *)

Section Aftermath.

Variable py_str : value -> pystr.



(** X12: a returned decision shows the belief state the tick left: its
    observation, memory context and plan are the stored ones, its actions
    are what was appended to the history, and the counter went up by
    one. *)
Theorem X12_decision_matches_belief_state (st : stages) (gs : value)
    (c : Context) (acts : list value) (obs plan mc : value) :
  step_result py_str st gs c = Ok (decision acts obs plan mc) ->
  last_observation (step_context py_str st gs c) = obs /\
  memory_context (step_context py_str st gs c) = mc /\
  current_plan (step_context py_str st gs c) = plan /\
  recent_actions (step_context py_str st gs c)
  = fold_left deque_append acts (recent_actions c) /\
  step_counter (step_context py_str st gs c) = (step_counter c + 1)%Z.
Proof.
  intros Hr.
  destruct (step_outcome py_str st gs c)
    as [(Hn & _)|(acts' & obs' & plan' & mc' & raw & Hd & Hc & _)].
  - rewrite Hn in Hr. discriminate.
  - rewrite Hd in Hr. injection Hr as <- <- <- <-.
    rewrite Hc. now repeat split.
Qed.

(** X13: along any run the step counter has grown by exactly the number
    of ticks that returned a decision, which is at most the number of
    ticks. *)
Theorem X13_counter_counts_decisions (ticks : list (stages * value))
    (c : Context) :
  step_counter (run py_str ticks c)
  = (step_counter c + Z.of_nat (run_decisions py_str ticks c))%Z /\
  run_decisions py_str ticks c <= length ticks.
Proof.
  revert c. induction ticks as [|[st gs] ticks IH]; intros c.
  - cbn. split; lia.
  - cbn [run run_decisions length].
    destruct (IH (step_context py_str st gs c)) as [IHc IHn].
    rewrite IHc.
    destruct (step_outcome py_str st gs c)
      as [(Hr & _ & Hc & _)|(acts & obs & plan & mc & raw & Hr & Hc & _)].
    + rewrite Hr, Hc. split; lia.
    + apply (f_equal step_counter) in Hc. cbn in Hc.
      rewrite Hr, Hc. cbn [decision]. split; lia.
Qed.

(** X17: in a belief state reached from [__init__], a tick that returns
    a decision leaves as history the last 25 of the old history followed
    by the returned actions; when both fit in 25 nothing is dropped and
    the actions follow the old history in order. *)
Theorem X17_history_update (ticks : list (stages * value)) (st : stages)
    (gs : value) (acts : list value) (obs plan mc : value) :
  step_result py_str st gs (run py_str ticks Agent_init)
  = Ok (decision acts obs plan mc) ->
  items (recent_actions (step_context py_str st gs (run py_str ticks Agent_init)))
  = lastn 25 (items (recent_actions (run py_str ticks Agent_init)) ++ acts) /\
  (length (items (recent_actions (run py_str ticks Agent_init))) + length acts
   <= 25 ->
   items (recent_actions (step_context py_str st gs (run py_str ticks Agent_init)))
   = items (recent_actions (run py_str ticks Agent_init)) ++ acts).
Proof.
  intros Hr.
  destruct (@run_recent_actions py_str 25 ticks Agent_init) as [Hm Hi];
    [reflexivity|cbn; lia|].
  assert (Hl : length (items (recent_actions (run py_str ticks Agent_init)))
               <= 25) by (rewrite Hi, lastn_length; lia).
  assert (Hs : items (recent_actions
                 (step_context py_str st gs (run py_str ticks Agent_init)))
               = lastn 25
                   (items (recent_actions (run py_str ticks Agent_init))
                    ++ acts)).
  { rewrite step_recent_actions. unfold tick_actions. rewrite Hr.
    cbn [decision]. now apply deque_extend_items. }
  split; [exact Hs|].
  intros Hfit. rewrite Hs. apply lastn_all. rewrite length_app. lia.
Qed.


End Aftermath.

(** ** Tokens *)

Section Tokens.

Lemma strip_clean (t : pystr) : clean_ends t -> strip t = t.
Proof.
  intros H. symmetry. apply trims_strip. exists [], [].
  cbn [app]. rewrite app_nil_r. now repeat split.
Qed.

Lemma strip_nil_spaces (p : pystr) :
  strip p = [] <-> forallb is_space p = true.
Proof.
  split.
  - intros H. destruct (strip_trims p) as (l & r & Hp & Hl & Hr & _).
    rewrite H in Hp. rewrite Hp. cbn [app].
    now rewrite forallb_app, Hl, Hr.
  - intros H. unfold strip, lstrip, rstrip.
    now rewrite (drop_space_all p H).
Qed.

Lemma normalize_str (s : pystr) :
  normalize (VStr s)
  = Ok (map VStr
          (filter (fun t => negb (pystr_eqb t []))
             (map strip (split comma s)))).
Proof. cbn [normalize]. now rewrite comprehension_filter. Qed.

Lemma pystr_eqb_neq_nil (t : pystr) : t <> [] -> pystr_eqb t [] = false.
Proof.
  intros H. unfold pystr_eqb. now destruct (list_eq_dec N.eq_dec t []).
Qed.

(** The tokens cut out of a string are clean. *)
Lemma tokens_clean (s : pystr) :
  Forall clean_token
    (filter (fun t => negb (pystr_eqb t [])) (map strip (split comma s))).
Proof.
  apply Forall_forall. intros t Ht.
  apply filter_In in Ht. destruct Ht as [Hin Hne].
  apply in_map_iff in Hin. destruct Hin as (p & <- & Hp).
  pose proof (split_no_sep comma s) as Hns.
  rewrite Forall_forall in Hns. specialize (Hns p Hp).
  destruct (strip_trims p) as (l & r & Hpe & _ & _ & Hc).
  repeat split.
  - intros H. rewrite H in Hne. discriminate Hne.
  - intros H. apply Hns. rewrite Hpe.
    apply in_or_app. right. apply in_or_app. now left.
  - exact Hc.
Qed.

(** Clean tokens joined by commas are cut out again as they were. *)
Lemma normalize_join (toks : list pystr) :
  Forall clean_token toks ->
  normalize (VStr (join comma toks)) = Ok (map VStr toks).
Proof.
  intros Hc. destruct toks as [|t toks]; [reflexivity|].
  rewrite normalize_str, split_join.
  - do 2 f_equal. induction Hc as [|x xs (Hne & _ & Hce) _ IH];
      [reflexivity|].
    cbn [map filter]. rewrite (strip_clean x Hce).
    apply pystr_eqb_neq_nil in Hne. rewrite Hne. cbn [negb].
    now rewrite IH.
  - discriminate.
  - apply Forall_forall. intros x Hx.
    rewrite Forall_forall in Hc. now destruct (Hc x Hx) as (_ & Hn & _).
Qed.

(** X14: a list of clean tokens (not empty, no comma, no whitespace at
    the ends) written as one comma-separated string is normalised back to
    that list. *)
Theorem X14_normalize_join_round_trip (toks : list pystr) :
  Forall clean_token toks ->
  normalize (VStr (join comma toks)) = Ok (map VStr toks).
Proof. exact (@normalize_join toks). Qed.

(** X15: the tokens [normalize] cuts out of a string are clean, and
    normalising is idempotent: joining them with commas and normalising
    again gives the same tokens. *)
Theorem X15_normalize_idempotent (s : pystr) :
  exists toks,
    normalize (VStr s) = Ok (map VStr toks) /\
    Forall clean_token toks /\
    normalize (VStr (join comma toks)) = normalize (VStr s).
Proof.
  exists (filter (fun t => negb (pystr_eqb t [])) (map strip (split comma s))).
  pose proof (tokens_clean s) as Hc.
  split; [apply normalize_str|split; [exact Hc|]].
  now rewrite (@normalize_join _ Hc), normalize_str.
Qed.

(** X16: a string is normalised to the empty action list exactly when it
    consists of whitespace and commas only (the empty string included). *)
Theorem X16_no_tokens (s : pystr) :
  normalize (VStr s) = Ok []
  <-> forallb (fun ch => is_space ch || (ch =? comma)%N) s = true.
Proof.
  rewrite normalize_str.
  assert (Hpieces :
    Forall (fun p => forallb is_space p = true) (split comma s)
    <-> forallb (fun ch => is_space ch || (ch =? comma)%N) s = true).
  { induction s as [|ch s IH]; cbn [split forallb].
    - split; [reflexivity|]. intros _. now repeat constructor.
    - destruct (N.eqb_spec ch comma) as [->|Hch].
      + rewrite orb_true_r. cbn [andb]. split.
        * intros H. apply IH. now inversion H.
        * intros H. constructor; [reflexivity|now apply IH].
      + rewrite orb_false_r.
        pose proof (split_not_nil comma s) as Hn.
        destruct (split comma s) as [|p ps]; [contradiction|].
        split.
        * intros H. inversion H as [|? ? Hp Hps]; subst.
          cbn [forallb] in Hp. apply andb_prop in Hp. destruct Hp as [-> Hp].
          cbn [andb]. apply IH. now constructor.
        * intros H. apply andb_prop in H. destruct H as [Hc H].
          apply IH in H. inversion H as [|? ? Hp Hps]; subst.
          constructor; [|assumption]. cbn [forallb]. now rewrite Hc, Hp. }
  etransitivity; [|exact Hpieces]. clear Hpieces.
  split.
  - intros H. injection H as H. apply map_eq_nil in H.
    apply Forall_forall. intros p Hp. apply strip_nil_spaces.
    destruct (strip p) as [|a t] eqn:Hs; [reflexivity|].
    assert (Hin : In (a :: t)
              (filter (fun t => negb (pystr_eqb t []))
                 (map strip (split comma s)))).
    { apply filter_In. split; [|reflexivity].
      rewrite <- Hs. now apply in_map. }
    rewrite H in Hin. contradiction.
  - intros H. do 2 f_equal.
    induction H as [|p ps Hp _ IH]; [reflexivity|].
    cbn [map filter]. apply strip_nil_spaces in Hp. rewrite Hp.
    cbn. exact IH.
Qed.

End Tokens.


(** ** The further properties at the scenario *)

Section FurtherCases.

Import Scenario.
Import Cases.

(** The belief state after the tick that answered [LEFT]. *)
Definition after_left : Context :=
  step_context py_str (returning (button "LEFT")) snapshot Agent_init.

Definition remembered_text : value := VStr (lit "met the professor").


(** X2 at a second tick. *)
Lemma X2_memory_inputs_witness :
  remembered_text = memory_context after_left /\
  VNone = current_plan after_left /\
  [button "LEFT"] = items (recent_actions after_left) /\
  length [entry] = 1.
Proof.
  refine (@X2_memory_inputs py_str (returning (button "LEFT")) snapshot
            after_left remembered_text VNone [button "LEFT"] [entry]
            (Ok remembered_text) _).
  vm_compute. right. left. reflexivity.
Defined.

(** X3 at a second tick, whose planner keeps the plan. *)
Lemma X3_planning_inputs_witness :
  VNone = current_plan after_left /\
  current_plan
    (step_context py_str (returning (button "LEFT")) snapshot after_left)
  = current_plan after_left.
Proof.
  destruct (@X3_planning_inputs py_str (returning (button "LEFT")) snapshot
              after_left remembered_text VNone (VBool false) residual
              (Ok VNone)) as (_ & Hold & _ & _ & Hkeep).
  - vm_compute. right. right. left. reflexivity.
  - split; [exact Hold|exact (Hkeep eq_refl)].
Defined.

(** X4 at a second tick: the history handed over is the one from before
    the tick. *)
Lemma X4_action_inputs_witness :
  resolve_frame snapshot = Ok image /\
  residual_state snapshot = Ok residual /\
  [button "LEFT"] = items (recent_actions after_left).
Proof.
  refine (proj2 (proj2 (@X4_action_inputs py_str (returning (button "LEFT"))
                          snapshot after_left remembered_text VNone
                          (VStr (lit "Littleroot Town")) image residual
                          [button "LEFT"] (Ok (button "LEFT")) _))).
  vm_compute. do 3 right. left. reflexivity.
Defined.

(** X5 at an observation without description. *)
Lemma X5_observation_text_witness :
  exists fields,
    observed (step_events py_str bare_stages snapshot Agent_init)
      (VDict fields) /\
    VStr (py_str (VDict [(lit "menu", VBool true)]))
    = match dict_lookup fields (lit "description") with
      | Some d => d
      | None => VStr (py_str (VDict fields))
      end.
Proof.
  refine (proj1 (@X5_observation_text py_str bare_stages snapshot Agent_init)
            remembered_text VNone
            (VStr (py_str (VDict [(lit "menu", VBool true)])))
            image residual [] (Ok (button "A")) _).
  vm_compute. do 3 right. left. reflexivity.
Defined.


(** X7 at a snapshot with a [None] frame beside a screenshot. *)
Lemma X7_falsy_frame_witness :
  step py_str (returning (button "LEFT")) (VDict null_frame_fields) Agent_init
  = step py_str (returning (button "LEFT"))
      (VDict (dict_without [lit "frame"] null_frame_fields)) Agent_init.
Proof.
  apply (@X7_falsy_frame_as_absent py_str (returning (button "LEFT"))
           Agent_init null_frame_fields).
  reflexivity.
Defined.


(** X9 at the state the perception stage receives. *)
Lemma X9_residual_state_witness :
  dict_lookup residual (lit "frame") = None /\
  (forall k, k <> lit "frame" -> dict_lookup residual k = dict_lookup fields k) /\
  map fst residual
  = filter (fun k => negb (pystr_eqb k (lit "frame"))) (map fst fields).
Proof.
  refine (@X9_residual_state py_str (returning (button "LEFT")) Agent_init
            fields
            (EvPerception image residual (Ok (VTuple [observation; VBool false])))
            residual _ eq_refl).
  vm_compute. left. reflexivity.
Defined.



(** X12 at the tick that answered [LEFT]. *)
Lemma X12_decision_witness :
  last_observation after_left = observation /\
  memory_context after_left = remembered_text /\
  current_plan after_left = VNone /\
  recent_actions after_left
  = fold_left deque_append [button "LEFT"] (recent_actions Agent_init) /\
  step_counter after_left = (step_counter Agent_init + 1)%Z.
Proof.
  apply (@X12_decision_matches_belief_state py_str
           (returning (button "LEFT")) snapshot Agent_init
           [button "LEFT"] observation VNone remembered_text).
  reflexivity.
Defined.

Lemma clean_ascii (name : string) :
  lit name <> [] ->
  forallb (fun ch => negb (is_space ch || (ch =? comma)%N)) (lit name) = true ->
  clean_token (lit name).
Proof.
  intros Hne Hall. rewrite forallb_forall in Hall.
  split; [exact Hne|split].
  - intros Hin. apply Hall in Hin. rewrite N.eqb_refl, orb_true_r in Hin.
    discriminate Hin.
  - unfold clean_ends. destruct (lit name) as [|a t] eqn:Hl; [exact I|].
    assert (Hs : forall ch, In ch (a :: t) -> is_space ch = false).
    { intros ch Hin. apply Hall in Hin.
      now destruct (is_space ch). }
    split; [apply Hs; now left|].
    apply Hs. destruct (exists_last (l := a :: t)) as (t0 & b & ->);
      [discriminate|].
    rewrite last_last. apply in_or_app. right. now left.
Qed.

(** X14 at two button names. *)
Lemma X14_round_trip_witness :
  normalize (VStr (join comma [lit "UP"; lit "A"]))
  = Ok (map VStr [lit "UP"; lit "A"]).
Proof.
  apply (@X14_normalize_join_round_trip [lit "UP"; lit "A"]).
  repeat constructor; apply clean_ascii; (discriminate || reflexivity).
Defined.

(** X17 at the first tick of an agent. *)
Lemma X17_history_update_witness :
  items (recent_actions
           (step_context py_str (returning (button "LEFT")) snapshot
              (run py_str [] Agent_init)))
  = items (recent_actions (run py_str [] Agent_init)) ++ [button "LEFT"].
Proof.
  apply (proj2 (@X17_history_update py_str [] (returning (button "LEFT"))
                  snapshot [button "LEFT"] observation VNone remembered_text
                  eq_refl)).
  cbn. lia.
Defined.


End FurtherCases.

(** ** What leaves [Agent.step] *)

(** An event after which the tick goes on: a stage call that returned or
    raised inside [Exception]. *)
Definition calm (ev : io_event) : bool :=
  match ev with
  | IoPrint _ _ => false
  | _ => match stage_signal ev with
         | Some (BaseOnly _) => false
         | _ => true
         end
  end.

(** A stage call that returned. *)
Definition returned_ev (ev : io_event) : bool :=
  match ev with
  | IoPrint _ _ => false
  | _ => match stage_signal ev with
         | None => true
         | Some _ => false
         end
  end.

Section StepIOFacts.

Local Arguments resolve_frame : simpl never.
Local Arguments residual_state : simpl never.
Local Arguments unpack2 : simpl never.
Local Arguments py_get : simpl never.
Local Arguments normalize : simpl never.
Local Arguments lit : simpl never.
Local Arguments dict_get : simpl never.
Local Arguments observation_entry : simpl never.
Local Arguments decision : simpl never.

Variable py_str : value -> pystr.
Variable env : environment.

Lemma io_for_each_append (acts : list value) (c : Context) :
  io_for_each acts
    (fun action =>
       io_modify (fun c =>
         set_recent_actions (deque_append (recent_actions c) action) c)) c
  = (Returns tt,
     set_recent_actions (fold_left deque_append acts (recent_actions c)) c,
     []).
Proof.
  revert c. induction acts as [|a acts IH]; intros c.
  - destruct c; reflexivity.
  - cbn. rewrite IH. reflexivity.
Qed.

Local Arguments io_for_each : simpl never.

Ltac io_leaf H :=
  injection H as <- <- <-;
  first
    [ left; eexists;
      match goal with
      | |- exists pre, _ /\ ?l = _ /\ _ => exists (removelast l)
      end;
      split; [reflexivity|split; [reflexivity|repeat constructor]]
    | right; left; do 4 eexists;
      split; [reflexivity|split; [reflexivity|repeat constructor]]
    | right; right; left;
      match goal with
      | |- exists pre ev b, _ /\ ?l = _ /\ _ =>
          exists (removelast l); do 2 eexists
      end;
      split; [reflexivity|split; [reflexivity|split;
        [reflexivity|repeat constructor]]]
    | right; right; right;
      match goal with
      | |- exists pre e s, _ /\ ?l = _ /\ _ =>
          exists (removelast l); do 2 eexists
      end;
      split; [reflexivity|split; [reflexivity|repeat constructor]] ].

Ltac io_handler H :=
  match type of H with
  | context [env_print_error env ?e] =>
      destruct (env_print_error env e) as [[]|?]; cbn in H; io_leaf H
  end.

(** The ways a tick ends: handled, with a decision, with a signal
    outside [Exception] from a stage, or with what the [print] raised. *)
Lemma step_io_paths (game_state : value) (c c' : Context)
    (r : outcome value) (t : list io_event) :
  step_io py_str env game_state c = (r, c', t) ->
  (exists e pre,
      r = Returns VNone /\ t = pre ++ [IoPrint e (Returns tt)] /\
      Forall (fun ev => calm ev = true) pre)
  \/ (exists acts obs plan mc,
        r = Returns (decision acts obs plan mc) /\
        c' = after_action obs mc plan acts c /\
        Forall (fun ev => returned_ev ev = true) t)
  \/ (exists pre ev b,
        r = Raises (BaseOnly b) /\ t = pre ++ [ev] /\
        stage_signal ev = Some (BaseOnly b) /\
        Forall (fun ev => returned_ev ev = true) pre)
  \/ (exists pre e s,
        r = Raises s /\ t = pre ++ [IoPrint e (Raises s)] /\
        Forall (fun ev => calm ev = true) pre).
Proof.
  unfold step_io, try_except_Exception, step_try_io. cbn. intros H.
  destruct (resolve_frame game_state) as [frame|e]; cbn in H;
    [|io_handler H].
  destruct (residual_state game_state) as [sd|e]; cbn in H;
    [|io_handler H].
  destruct (env_perception_step env frame sd) as [r0|[e|b]]; cbn in H;
    [|io_handler H|io_leaf H].
  destruct (unpack2 r0) as [[obs slow]|e]; cbn in H; [|io_handler H].
  destruct (py_get obs (lit "description") (VStr (py_str obs)))
    as [text|e]; cbn in H; [|io_handler H].
  destruct (env_memory_step env _ _ _ _) as [mc|[e|b]] in H; cbn in H;
    [|io_handler H|io_leaf H].
  destruct (env_planning_step env _ _ _ _) as [plan|[e|b]] in H; cbn in H;
    [|io_handler H|io_leaf H].
  destruct (env_action_step env _ _ _ _ _ _) as [raw|[e|b]] in H; cbn in H;
    [|io_handler H|io_leaf H].
  destruct (normalize raw) as [acts|e]; cbn in H; [|io_handler H].
  rewrite io_for_each_append in H. cbn in H.
  io_leaf H.
Qed.

(** With stages that raise nothing outside [Exception] and a [print]
    that completes, the tick is the one of [step]. *)
Lemma step_io_agrees (st : stages) (print_error : exn -> outcome unit)
    (game_state : value) (c : Context) :
  (forall e, print_error e = Returns tt) ->
  step_io py_str (env_of st print_error) game_state c
  = (lift_outcome (step_result py_str st game_state c),
     step_context py_str st game_state c,
     map lift_event (step_events py_str st game_state c)).
Proof.
  intros Hq.
  step_cases py_str st game_state c;
    unfold step_io, try_except_Exception, step_try_io, entry_of in *; cbn;
    repeat match goal with
           | H : ?x = _ |- context [?x] => rewrite H; cbn
           end;
    rewrite ?Hq, ?io_for_each_append; reflexivity.
Qed.

End StepIOFacts.

Section Leaving.

Variable py_str : value -> pystr.

Lemma calm_not_base (ev : io_event) (b : base_exn) :
  calm ev = true -> stage_signal ev <> Some (BaseOnly b).
Proof.
  intros Hc Hs. destruct ev; cbn in Hc, Hs; try discriminate Hc;
    destruct r as [v|[e|b']]; congruence.
Qed.

Lemma returned_no_signal (ev : io_event) (s : signal) :
  returned_ev ev = true -> stage_signal ev <> Some s.
Proof.
  intros Hc Hs. destruct ev; cbn in Hc, Hs; try discriminate Hc;
    destruct r as [v|s']; congruence.
Qed.

(** Membership in the events of a path, by cases on the last one. *)
Ltac in_path H :=
  apply in_app_or in H; destruct H as [H|[H|[]]];
  [ match goal with
    | F : Forall _ ?pre |- _ =>
        rewrite Forall_forall in F; apply F in H
    end
  | idtac ].

(** A call of [step] raises exactly when a stage raised outside
    [Exception] or the handler's [print] raised, and then it raises
    that. *)
Lemma step_io_raises_iff (env : environment) (gs : value) (c : Context)
    (s : signal) :
  io_result py_str env gs c = Raises s
  <-> (exists ev b,
         In ev (io_events py_str env gs c) /\
         stage_signal ev = Some (BaseOnly b) /\ s = BaseOnly b)
      \/ (exists e, In (IoPrint e (Raises s)) (io_events py_str env gs c)).
Proof.
  unfold io_result, io_events.
  destruct (step_io py_str env gs c) as [[r c'] t] eqn:E.
  apply step_io_paths in E. cbn [fst snd].
  destruct E as [(e & pre & -> & -> & F)
                |[(acts & obs & plan & mc & -> & _ & F)
                 |[(pre & ev & b & -> & -> & Hev & F)
                  |(pre & e & s0 & -> & -> & F)]]].
  - split; [discriminate|].
    intros [(ev & b & Hin & Hs & _)|(e' & Hin)]; in_path Hin.
    + now apply calm_not_base with (b := b) in Hin.
    + subst ev. discriminate Hs.
    + discriminate Hin.
    + discriminate Hin.
  - split; [discriminate|].
    rewrite Forall_forall in F.
    intros [(ev & b & Hin & Hs & _)|(e' & Hin)]; apply F in Hin.
    + now apply returned_no_signal with (s := BaseOnly b) in Hin.
    + discriminate Hin.
  - split.
    + intros H. injection H as <-. left. exists ev, b.
      split; [apply in_or_app; right; now left|now split].
    + intros [(ev' & b' & Hin & Hs & ->)|(e' & Hin)]; in_path Hin.
      * now apply returned_no_signal with (s := BaseOnly b') in Hin.
      * subst ev'. congruence.
      * discriminate Hin.
      * subst ev. discriminate Hev.
  - split.
    + intros H. injection H as <-. right. exists e.
      apply in_or_app. right. now left.
    + intros [(ev & b & Hin & Hs & _)|(e' & Hin)]; in_path Hin.
      * now apply calm_not_base with (b := b) in Hin.
      * subst ev. discriminate Hs.
      * discriminate Hin.
      * now injection Hin as _ <-.
Qed.

(** C6, as the code has it: when [step] returns, it returns [None] or
    the mapping with the four keys [action], [observation], [plan] and
    [memory_context], filled from the belief state the tick left, never a
    part of it; it raises to its caller exactly when a stage raised an
    exception that does not derive from [Exception], or when the
    handler's [print] raised; a stage exception that derives from
    [Exception] is turned into [None] when the [print] completes. *)
Theorem C6_returns_or_propagates (env : environment) (gs : value)
    (c : Context) :
  (forall v,
     io_result py_str env gs c = Returns v ->
     v = VNone \/
     exists acts obs plan mc,
       v = VDict [ (lit "action", VList acts);
                   (lit "observation", obs);
                   (lit "plan", plan);
                   (lit "memory_context", mc) ] /\
       last_observation (io_context py_str env gs c) = obs /\
       current_plan (io_context py_str env gs c) = plan /\
       memory_context (io_context py_str env gs c) = mc) /\
  (forall s,
     io_result py_str env gs c = Raises s
     <-> (exists ev b,
            In ev (io_events py_str env gs c) /\
            stage_signal ev = Some (BaseOnly b) /\ s = BaseOnly b)
         \/ (exists e,
               In (IoPrint e (Raises s)) (io_events py_str env gs c))) /\
  (forall ev e,
     In ev (io_events py_str env gs c) ->
     stage_signal ev = Some (Exc e) ->
     (forall e' s, ~ In (IoPrint e' (Raises s)) (io_events py_str env gs c)) ->
     io_result py_str env gs c = Returns VNone).
Proof.
  split; [|split; [apply step_io_raises_iff|]].
  - intros v. unfold io_result, io_context.
    destruct (step_io py_str env gs c) as [[r c'] t] eqn:E.
    apply step_io_paths in E. cbn [fst snd].
    destruct E as [(e & pre & -> & _)
                  |[(acts & obs & plan & mc & -> & -> & _)
                   |[(pre & ev & b & -> & _)|(pre & e & s0 & -> & _)]]];
      intros H; try discriminate H; injection H as <-.
    + now left.
    + right. exists acts, obs, plan, mc. now repeat split.
  - intros ev e Hin Hs Hp. revert Hin Hp. unfold io_result, io_events.
    destruct (step_io py_str env gs c) as [[r c'] t] eqn:E.
    apply step_io_paths in E. cbn [fst snd].
    destruct E as [(e0 & pre & -> & -> & F)
                  |[(acts & obs & plan & mc & -> & _ & F)
                   |[(pre & ev' & b & -> & -> & Hev & F)
                    |(pre & e0 & s0 & -> & -> & F)]]];
      intros Hin Hp.
    + reflexivity.
    + rewrite Forall_forall in F. apply F in Hin.
      now apply returned_no_signal with (s := Exc e) in Hin.
    + in_path Hin.
      * now apply returned_no_signal with (s := Exc e) in Hin.
      * subst ev'. congruence.
    + exfalso. apply (Hp e0 s0). apply in_or_app. right. now left.
Qed.


End Leaving.

Section LeavingCases.

Import Scenario.
Import Cases.

(** With a [print] that completes and stages inside [Exception], the
    tick that answers [LEFT] is the one evaluated above. *)
Example tick_left_io :
  io_result py_str (env_of (returning (button "LEFT")) quiet) snapshot
    Agent_init
  = Returns (decision [button "LEFT"] observation VNone
               (VStr (lit "met the professor"))).
Proof. reflexivity. Qed.

(** C6 as stated fails: the memory stage is interrupted from the
    keyboard and [step] raises that to its caller; and when the memory
    stage raises inside [Exception] but the handler's [print] cannot
    encode its line, [step] raises the encoding error instead of returning
    [None]. *)
Lemma C6_counterexample :
  In (IoMemory (VStr (lit "Initialized memory context")) VNone [] [entry]
        (Raises (BaseOnly KeyboardInterrupt)))
    (io_events py_str interrupted snapshot Agent_init) /\
  io_result py_str interrupted snapshot Agent_init
  = Raises (BaseOnly KeyboardInterrupt) /\
  io_result py_str (env_of memory_fails print_fails) snapshot Agent_init
  = Raises (Exc encode_error).
Proof.
  split; [|split]; [|reflexivity|reflexivity].
  vm_compute. right. left. reflexivity.
Qed.

(** C6 at a memory stage that raises inside [Exception] with a [print]
    that completes, and at the tick that answers [LEFT]. *)
Lemma C6_caught_witness :
  io_result py_str (env_of memory_fails quiet) snapshot Agent_init
  = Returns VNone /\
  (decision [button "LEFT"] observation VNone (VStr (lit "met the professor"))
   = VNone
   \/ exists acts obs plan mc,
        decision [button "LEFT"] observation VNone
          (VStr (lit "met the professor"))
        = VDict [ (lit "action", VList acts);
                  (lit "observation", obs);
                  (lit "plan", plan);
                  (lit "memory_context", mc) ] /\
        last_observation
          (io_context py_str (env_of (returning (button "LEFT")) quiet)
             snapshot Agent_init) = obs /\
        current_plan
          (io_context py_str (env_of (returning (button "LEFT")) quiet)
             snapshot Agent_init) = plan /\
        memory_context
          (io_context py_str (env_of (returning (button "LEFT")) quiet)
             snapshot Agent_init) = mc).
Proof.
  split.
  - apply (proj2 (proj2 (@C6_returns_or_propagates py_str
                           (env_of memory_fails quiet) snapshot Agent_init))
             (IoMemory (VStr (lit "Initialized memory context")) VNone []
                [entry] (Raises (Exc backend_error)))
             backend_error).
    + vm_compute. right. left. reflexivity.
    + reflexivity.
    + intros e' s H. vm_compute in H.
      destruct H as [H|[H|[H|[]]]]; discriminate H.
  - apply (proj1 (@C6_returns_or_propagates py_str
                    (env_of (returning (button "LEFT")) quiet) snapshot
                    Agent_init)).
    reflexivity.
Defined.


End LeavingCases.
